(** * Accurate Binary Convolution: a shallow embedding of ABC.ipynb

    The notebook builds a TensorFlow 1.x dataflow graph.  Two stages are
    kept apart, as in the source:

    - Python-level construction ([get_binary_filters], [ApproxConv], [ABC],
      ...) runs once, may raise a Python exception, and returns graph nodes
      and closures;
    - graph evaluation ([sess.run]) reads the variables of the session and,
      for the training operation only, writes them.

    Tensors of dtype [tf.float32] are modelled twice.  The layers, the loss
    and the optimizer are embedded over the real numbers, with exact
    arithmetic: their outputs are sums and products, which rounding moves
    by a little.  The Binary Filter Generator takes a sign, which rounding
    can flip, so it is embedded a second time over IEEE 754 binary32
    ([Module Float32]), and what is claimed of its offsets and members is
    settled there.  The counts [no_filters] and [no_ApproxConvLayers] are
    natural numbers: negative counts, which the tensor runtime refuses as
    dimensions, are left out. *)

From Stdlib Require Import Reals Lra Lia List Arith ZArith Bool.
From Stdlib Require Import Floats.SpecFloat QArith Qabs Qreals.
Import ListNotations.
Open Scope R_scope.

(** ** Python-level results *)

Inductive error : Type :=
| ZeroDivisionError.

Inductive result (A : Type) : Type :=
| Ok (a : A)
| Raise (e : error).
Arguments Ok {A} a.
Arguments Raise {A} e.

Definition bind {A B : Type} (m : result A) (k : A -> result B) : result B :=
  match m with
  | Ok a => k a
  | Raise e => Raise e
  end.

Notation "x <- m ;; k" := (bind m (fun x => k))
  (at level 61, m at next level, right associativity).

(** Python true division [x / d] of a float by an int. *)
Definition py_div (x : R) (d : Z) : result R :=
  if Z.eqb d 0 then Raise ZeroDivisionError else Ok (x / IZR d).

(** [range(n)] *)
Definition py_range (n : nat) : list nat := seq 0 n.

(** ** Tensors

    A tensor of rank [r] is a nested list of depth [r]; the outermost list
    is axis 0. *)

Fixpoint tensor (r : nat) : Type :=
  match r with
  | O => R
  | S r' => list (tensor r')
  end.

(** Row-major list of the elements. *)
Fixpoint flatten (r : nat) : tensor r -> list R :=
  match r with
  | O => fun x => [x]
  | S r' => fun l => flat_map (flatten r') l
  end.

(** Element-wise unary operation; also a binary operation against a Python
    scalar. *)
Fixpoint tmap (f : R -> R) (r : nat) : tensor r -> tensor r :=
  match r with
  | O => fun x => f x
  | S r' => fun l => map (tmap f r') l
  end.

(** The rank-[r] tensor of shape [1; ...; 1] holding [x]. *)
Fixpoint wrap (r : nat) (x : R) : tensor r :=
  match r with
  | O => x
  | S r' => [wrap r' x]
  end.

(** [k] leading axes of size 1: how broadcasting views a tensor of lower
    rank. *)
Fixpoint lead1 (k : nat) {r : nat} (t : tensor r) : tensor (k + r) :=
  match k with
  | O => t
  | S k' => [lead1 k' t]
  end.

Definition is_singleton {A : Type} (l : list A) : option A :=
  match l with
  | [a] => Some a
  | _ => None
  end.

Fixpoint zip_with {A B C : Type} (f : A -> B -> C) (l1 : list A) (l2 : list B)
  : list C :=
  match l1, l2 with
  | a :: l1', b :: l2' => f a b :: zip_with f l1' l2'
  | _, _ => []
  end.

(** Element-wise binary operation with broadcasting between two tensors of
    the same rank: an axis of size 1 is stretched to the size of the other
    operand's axis.  TensorFlow rejects any other difference of sizes when
    the graph is built; on such operands the embedding pairs the elements
    that exist on both sides. *)
Fixpoint bcast (f : R -> R -> R) (r : nat) : tensor r -> tensor r -> tensor r :=
  match r with
  | O => fun x y => f x y
  | S r' => fun l1 l2 =>
      match is_singleton l1 with
      | Some a => map (fun b => bcast f r' a b) l2
      | None =>
          match is_singleton l2 with
          | Some b => map (fun a => bcast f r' a b) l1
          | None => zip_with (bcast f r') l1 l2
          end
      end
  end.

(** [tf.expand_dims(t, axis=0)] *)
Definition tf_expand_dims0 {r : nat} (t : tensor r) : tensor (S r) := [t].

(** [tf.tile(t, multiples)]: axis [k] is repeated [multiples[k]] times. *)
Fixpoint tf_tile (r : nat) : tensor r -> list nat -> tensor r :=
  match r with
  | O => fun x _ => x
  | S r' => fun l multiples =>
      match multiples with
      | [] => l
      | m :: ms => concat (repeat (map (fun t => tf_tile r' t ms) l) m)
      end
  end.

(** [tf.reshape]: the elements in row-major order, cut again along the new
    shape.  A shape entry [-1] is inferred from the number of elements. *)
Fixpoint chunks (n size : nat) (l : list R) : list (list R) :=
  match n with
  | O => []
  | S n' => firstn size l :: chunks n' size (skipn size l)
  end.

Definition prod_dims (dims : list nat) : nat := fold_right Nat.mul 1%nat dims.

Fixpoint build (r : nat) (dims : list nat) (data : list R) : tensor r :=
  match r with
  | O => hd 0 data
  | S r' =>
      match dims with
      | [] => []
      | d :: ds => map (build r' ds) (chunks d (prod_dims ds) data)
      end
  end.

Definition known_dims (shape : list Z) : nat :=
  prod_dims (map Z.to_nat (filter (fun d => negb (Z.eqb d (-1))) shape)).

Definition infer_shape (shape : list Z) (total : nat) : list nat :=
  map (fun d => if Z.eqb d (-1) then Nat.div total (known_dims shape)
                else Z.to_nat d) shape.

Definition tf_reshape {r0 : nat} (t : tensor r0) (r : nat) (shape : list Z)
  : tensor r :=
  build r (infer_shape shape (length (flatten r0 t))) (flatten r0 t).

(** [tf.reduce_sum(t, axis=0)]: the slices along axis 0 added up. *)
Definition tf_reduce_sum0 {r : nat} (t : tensor (S r)) : tensor r :=
  fold_right (bcast Rplus r) (wrap r 0) t.

(** Sum and number of all elements (reduction over every axis). *)
Fixpoint reduce_sum_all (r : nat) : tensor r -> R :=
  match r with
  | O => fun x => x
  | S r' => fun l => fold_right Rplus 0 (map (reduce_sum_all r') l)
  end.

Fixpoint num_elements (r : nat) : tensor r -> nat :=
  match r with
  | O => fun _ => 1%nat
  | S r' => fun l => fold_right Nat.add 0%nat (map (num_elements r') l)
  end.

(** [tf.reduce_mean(t, axes=range(rank))] *)
Definition reduce_mean_all {r : nat} (t : tensor r) : R :=
  reduce_sum_all r t / INR (num_elements r t).

(** [tf.nn.moments(x, axes=range(rank))]: the mean, and the mean of the
    squared difference to it. *)
Definition tf_nn_moments {r : nat} (x : tensor r) : R * R :=
  let mean := reduce_mean_all x in
  let variance := reduce_mean_all (tmap (fun y => (y - mean) * (y - mean)) r x) in
  (mean, variance).

(** [tf.sign]: -1, 0 or 1. *)
Definition tf_sign (x : R) : R :=
  if Rlt_dec 0 x then 1 else if Rlt_dec x 0 then -1 else 0.

(** [tf.clip_by_value(t, lo, hi)] = maximum(minimum(t, hi), lo) *)
Definition tf_clip_by_value (x lo hi : R) : R := Rmax (Rmin x hi) lo.

(** [tf.convert_to_tensor(range(n), dtype=tf.float32)] *)
Definition range_tensor (n : nat) : tensor 1 := map INR (py_range n).

(** ** Session state and graph nodes

    The variables the notebook declares for one ABC layer.  [v_adam_m],
    [v_adam_v] and the two powers are the slots [tf.train.AdamOptimizer]
    creates for [alphas]. *)

Record store : Type := mkStore {
  v_filters : tensor 4;
  v_biases : tensor 1;
  v_alphas : tensor 2;
  v_adam_m : tensor 2;
  v_adam_v : tensor 2;
  v_beta1_power : R;
  v_beta2_power : R;
  v_shift_parameters : tensor 2;
  v_betas : tensor 2
}.

(** A graph node: its value is a function of the session's variables. *)
Definition node (A : Type) : Type := store -> A.

Definition constant {A : Type} (a : A) : node A := fun _ => a.

(** An operation run by [sess.run]: a fetched value and the variables
    afterwards. *)
Definition session (A : Type) : Type := store -> A * store.

Definition fetch {A : Type} (n : node A) : session A := fun s => (n s, s).
Definition run_op (op : store -> store) : session unit := fun s => (tt, op s).

(** An operand of [+] that is either a Python float or a graph tensor. *)
Inductive operand : Type :=
| PyFloat (c : R)
| Tensor1 (t : node (tensor 1)).

Inductive padding : Type :=
| VALID
| SAME.

(** ** Moment Estimator *)

Definition get_mean_stddev {r : nat} (input_tensor : node (tensor r))
  : node R * node R :=
  let mean := fun s => fst (tf_nn_moments (input_tensor s)) in
  let variance := fun s => snd (tf_nn_moments (input_tensor s)) in
  let stddev := fun s => sqrt (variance s) in
  (mean, stddev).

(** ** Binary Filter Generator *)

(** The local [spreaded_deviation] of [get_shifted_stddev]:
    [-1. + (2./(no_filters - 1)) * range(no_filters)].  The quotient is
    computed by Python before any tensor is created. *)
Definition spreaded_deviation (no_filters : nat) : result (tensor 1) :=
  q <- py_div 2 (Z.of_nat no_filters - 1) ;;
  Ok (tmap (fun x => -1 + x) 1 (tmap (fun x => q * x) 1 (range_tensor no_filters))).

Definition get_shifted_stddev (stddev : node R) (no_filters : nat)
  : result (node (tensor 1)) :=
  spreaded <- spreaded_deviation no_filters ;;
  Ok (fun s => tmap (fun x => x * stddev s) 1 spreaded).

(** The shape [[no_filters] + [1] * rank]. *)
Definition lead_shape (no_filters rank : nat) : list Z :=
  Z.of_nat no_filters :: repeat 1%Z rank.

Definition get_binary_filters {r : nat} (convolution_filters : node (tensor r))
  (no_filters : nat) : result (node (tensor (S r))) :=
  let '(mean, stddev) := get_mean_stddev convolution_filters in
  shifted_stddev <- get_shifted_stddev stddev no_filters ;;
  let mean_adjusted_filters : node (tensor r) :=
    fun s => tmap (fun w => w - mean s) r (convolution_filters s) in
  let expanded_filters : node (tensor (S r)) :=
    fun s => tf_expand_dims0 (mean_adjusted_filters s) in
  let tiled_filters : node (tensor (S r)) :=
    fun s => tf_tile (S r) (expanded_filters s) (no_filters :: repeat 1%nat r) in
  let expanded_stddev : node (tensor (S r)) :=
    fun s => tf_reshape (r0 := 1) (shifted_stddev s) (S r) (lead_shape no_filters r) in
  let binarized_filters : node (tensor (S r)) :=
    fun s => tmap tf_sign (S r) (bcast Rplus (S r) (tiled_filters s) (expanded_stddev s)) in
  Ok binarized_filters.

(** ** Alpha Fitter *)

(** [tf.reduce_mean(t, axis=0)] of a vector. *)
Definition tf_reduce_mean0 (t : tensor 1) : R :=
  fold_right Rplus 0 t / INR (length t).

Definition weighted_sum_filters (alphas : tensor 2) (reshaped_binary_filters : tensor 2)
  : tensor 1 :=
  tf_reduce_sum0 (bcast Rmult 2 alphas reshaped_binary_filters).

Definition alphas_loss_value {r : nat} (convolution_filters : tensor r)
  (binary_filters : tensor (S r)) (no_filters : nat) (alphas : tensor 2) : R :=
  let reshaped_convolution_filters : tensor 1 :=
    tf_reshape convolution_filters 1 [(-1)%Z] in
  let reshaped_binary_filters : tensor 2 :=
    tf_reshape binary_filters 2 [Z.of_nat no_filters; (-1)%Z] in
  let weighted_sum := weighted_sum_filters alphas reshaped_binary_filters in
  let error := tmap (fun d => d * d) 1
                 (bcast Rminus 1 reshaped_convolution_filters weighted_sum) in
  tf_reduce_mean0 error.

(** Gradient of the loss with respect to [alphas], as reverse-mode
    differentiation of the graph above produces it: entry [i] is
    [sum_j (1/N) * 2 * (W_j - S_j) * (-1) * B_ij], of shape [(no_filters, 1)]. *)
Definition alphas_gradient {r : nat} (convolution_filters : tensor r)
  (binary_filters : tensor (S r)) (no_filters : nat) (alphas : tensor 2) : tensor 2 :=
  let w : tensor 1 := tf_reshape convolution_filters 1 [(-1)%Z] in
  let b : tensor 2 := tf_reshape binary_filters 2 [Z.of_nat no_filters; (-1)%Z] in
  let diff : tensor 1 := bcast Rminus 1 w (weighted_sum_filters alphas b) in
  let upstream : tensor 1 := tmap (fun d => / INR (length diff) * (2 * d) * -1) 1 diff in
  map (fun row : tensor 1 => [fold_right Rplus 0 (bcast Rmult 1 upstream row)]) b.

(** [tf.train.AdamOptimizer()]: learning rate 0.001, beta1 0.9,
    beta2 0.999, epsilon 1e-8. *)
Definition adam_lr : R := 1 / 1000.
Definition adam_beta1 : R := 9 / 10.
Definition adam_beta2 : R := 999 / 1000.
Definition adam_epsilon : R := 1 / 100000000.

(** A variable as the optimizer holds it once it is named in [var_list]:
    the variable itself and the two slots, "m" and "v", that the optimizer
    creates for it, each with its current value and its assignment. *)
Record optimized_variable : Type := mkOptimizedVariable {
  var_rank : nat;
  var_value : node (tensor var_rank);
  var_assign : tensor var_rank -> store -> store;
  slot_m : node (tensor var_rank);
  slot_m_assign : tensor var_rank -> store -> store;
  slot_v : node (tensor var_rank);
  slot_v_assign : tensor var_rank -> store -> store
}.

(** The variable [alphas], with the slots the session holds for it. *)
Definition alphas_variable : optimized_variable :=
  mkOptimizedVariable 2
    v_alphas
    (fun t s => mkStore (v_filters s) (v_biases s) t (v_adam_m s) (v_adam_v s)
                        (v_beta1_power s) (v_beta2_power s)
                        (v_shift_parameters s) (v_betas s))
    v_adam_m
    (fun t s => mkStore (v_filters s) (v_biases s) (v_alphas s) t (v_adam_v s)
                        (v_beta1_power s) (v_beta2_power s)
                        (v_shift_parameters s) (v_betas s))
    v_adam_v
    (fun t s => mkStore (v_filters s) (v_biases s) (v_alphas s) (v_adam_m s) t
                        (v_beta1_power s) (v_beta2_power s)
                        (v_shift_parameters s) (v_betas s)).

(** The update of one variable and of its slots by the gradient [grad],
    with step size [lr_t] (the kernel [ApplyAdam]). *)
Definition apply_adam (lr_t : R) (x : optimized_variable) (grad : tensor (var_rank x))
  (s : store) : store :=
  let m_t := bcast (fun m g => adam_beta1 * m + (1 - adam_beta1) * g) (var_rank x)
               (slot_m x s) grad in
  let v_t := bcast (fun v g => adam_beta2 * v + (1 - adam_beta2) * (g * g)) (var_rank x)
               (slot_v x s) grad in
  let step := bcast (fun m v => lr_t * m / (sqrt v + adam_epsilon)) (var_rank x)
                m_t v_t in
  var_assign x (bcast Rminus (var_rank x) (var_value x s) step)
    (slot_v_assign x v_t (slot_m_assign x m_t s)).

(** The two accumulators [beta1_power] and [beta2_power] of the optimizer. *)
Definition assign_beta_powers (beta1_power beta2_power : R) (s : store) : store :=
  mkStore (v_filters s) (v_biases s) (v_alphas s) (v_adam_m s) (v_adam_v s)
          beta1_power beta2_power (v_shift_parameters s) (v_betas s).

(** [AdamOptimizer().minimize(loss, var_list)]: every variable of
    [var_list] comes with the gradient of the loss in it; each is updated
    in turn, then the beta powers advance.  No other variable is handed to
    the optimizer. *)
Definition minimize
  (var_list : list {x : optimized_variable & node (tensor (var_rank x))})
  : store -> store :=
  fun s =>
    let lr_t := adam_lr * sqrt (1 - v_beta2_power s) / (1 - v_beta1_power s) in
    let applied :=
      fold_left
        (fun (s' : store) (gv : {x : optimized_variable & node (tensor (var_rank x))}) =>
           apply_adam lr_t (projT1 gv) (projT2 gv s) s')
        var_list s in
    assign_beta_powers (v_beta1_power s * adam_beta1) (v_beta2_power s * adam_beta2)
      applied.

Definition get_alphas {r : nat} (convolution_filters : node (tensor r))
  (binary_filters : node (tensor (S r))) (no_filters : nat)
  : node (tensor 2) * (store -> store) * node R :=
  let alphas : node (tensor 2) := v_alphas in
  let loss : node R :=
    fun s => alphas_loss_value (convolution_filters s) (binary_filters s)
               no_filters (alphas s) in
  let gradient : node (tensor 2) :=
    fun s => alphas_gradient (convolution_filters s) (binary_filters s)
               no_filters (alphas s) in
  let var_list : list {x : optimized_variable & node (tensor (var_rank x))} :=
    [existT (fun x => node (tensor (var_rank x))) alphas_variable gradient] in
  let training_op : store -> store := minimize var_list in
  (alphas, training_op, loss).

(** ** Reference semantics of [tf.nn.conv2d]

    Input in NHWC layout, filter indexed (height, width, in-channels,
    out-channels), no kernel flip; [strides] is the 4-tuple of the call.
    Used to run the layers on concrete tensors; the layer theorems hold for
    any convolution primitive. *)

Definition out_size (p : padding) (n k s : nat) : nat :=
  match p with
  | VALID => if Nat.ltb n k then 0%nat else S (Nat.div (n - k) s)
  | SAME => Nat.div (n + s - 1) s
  end.

Definition pad_before (p : padding) (n k s : nat) : nat :=
  match p with
  | VALID => 0%nat
  | SAME => Nat.div ((out_size SAME n k s - 1) * s + k - n) 2
  end.

Definition nth_Z {A : Type} (z : Z) (l : list A) (d : A) : A :=
  if Z.ltb z 0 then d else nth (Z.to_nat z) l d.

Definition sum_over (n : nat) (f : nat -> R) : R :=
  fold_right Rplus 0 (map f (seq 0 n)).

Definition tf_conv2d (input filter : tensor 4) (strides : list nat) (p : padding)
  : tensor 4 :=
  let sh := nth 1 strides 1%nat in
  let sw := nth 2 strides 1%nat in
  let fh := length filter in
  let fw := length (hd [] filter) in
  let cin := length (hd [] (hd [] filter)) in
  let cout := length (hd [] (hd [] (hd [] filter))) in
  map (fun image : tensor 3 =>
    let h := length image in
    let w := length (hd [] image) in
    let top := Z.of_nat (pad_before p h fh sh) in
    let left := Z.of_nat (pad_before p w fw sw) in
    map (fun i =>
      map (fun j =>
        map (fun k =>
          sum_over fh (fun di => sum_over fw (fun dj => sum_over cin (fun q =>
            nth q (nth_Z (Z.of_nat (j * sw + dj) - left)
                     (nth_Z (Z.of_nat (i * sh + di) - top) image []) []) 0
            * nth k (nth q (nth dj (nth di filter []) []) []) 0))))
          (seq 0 cout))
        (seq 0 (out_size p w fw sw)))
      (seq 0 (out_size p h fh sh)))
    input.

(** ** Approximate Convolution Layer and ABC Layer *)

Section Layers.

(** The convolution primitive of the tensor runtime. *)
Variable conv2d : tensor 4 -> tensor 4 -> list nat -> padding -> tensor 4.

(** [this_conv + biases] *)
Definition add_biases (this_conv : tensor 4) (biases : operand) : node (tensor 4) :=
  fun s =>
    match biases with
    | PyFloat c => tmap (fun x => x + c) 4 this_conv
    | Tensor1 b => bcast Rplus 4 this_conv (lead1 3 (r := 1) (b s))
    end.

(** The closure [ApproxConvLayer] of [ApproxConv], with the variables it
    captures as leading arguments. *)
Definition ApproxConvLayer (no_filters : nat) (binary_filters : node (tensor 5))
  (alphas : node (tensor 2)) (biases : operand) (strides : nat * nat)
  (padding : padding) (input_tensor : node (tensor 4)) : node (tensor 4) :=
  fun s =>
    let reshaped_alphas : tensor 5 :=
      tf_reshape (alphas s) 5 (lead_shape no_filters 4) in
    let approxConv_outputs : list (tensor 4) :=
      map (fun index =>
             let this_conv :=
               conv2d (input_tensor s) (nth index (binary_filters s) [])
                      (1%nat :: fst strides :: snd strides :: [1%nat]) padding in
             add_biases this_conv biases s)
          (py_range no_filters) in
    let conv_outputs : tensor 5 := approxConv_outputs in
    tf_reduce_sum0 (bcast Rmult 5 conv_outputs reshaped_alphas).

(** [ApproxConv]: [convolution_filters] and [convolution_biases] are the
    initial values of the variables [filters] and [biases]; only the
    presence of the biases shapes the graph. *)
Definition ApproxConv (no_filters : nat) (convolution_filters : tensor 4)
  (convolution_biases : option (tensor 1)) (strides : nat * nat)
  (padding : padding)
  : result ((store -> store) * (node (tensor 4) -> node (tensor 4)) * node R) :=
  let filters : node (tensor 4) := v_filters in
  let biases : operand :=
    match convolution_biases with
    | None => PyFloat 0
    | Some _ => Tensor1 v_biases
    end in
  binary_filters <- get_binary_filters filters no_filters ;;
  let '(alphas, alphas_training_op, alphas_loss) :=
    get_alphas filters binary_filters no_filters in
  Ok (alphas_training_op,
      ApproxConvLayer no_filters binary_filters alphas biases strides padding,
      alphas_loss).

(** The local [binarized_activation] of the loop body of [ABCLayer]. *)
Definition binarized_activation (shift_parameters : node (tensor 2))
  (input_tensor : node (tensor 4)) (index : nat) : node (tensor 4) :=
  fun s =>
    let shifted_input :=
      tmap (fun x => tf_clip_by_value x 0 1) 4
        (bcast Rplus 4 (input_tensor s)
           (lead1 3 (r := 1) (nth index (shift_parameters s) []))) in
    tmap tf_sign 4 (tmap (fun x => x - 5 / 10) 4 shifted_input).

(** The closure [ABCLayer] of [ABC]. *)
Definition ABCLayer (no_ApproxConvLayers : nat)
  (shift_parameters betas : node (tensor 2))
  (ApproxConvLayer : node (tensor 4) -> node (tensor 4))
  (input_tensor : node (tensor 4)) : node (tensor 4) :=
  fun s =>
    let reshaped_betas : tensor 5 :=
      tf_reshape (betas s) 5 (lead_shape no_ApproxConvLayers 4) in
    let ApproxConv_layers : list (tensor 4) :=
      map (fun index =>
             ApproxConvLayer (binarized_activation shift_parameters input_tensor index) s)
          (py_range no_ApproxConvLayers) in
    let ApproxConv_output : tensor 5 := ApproxConv_layers in
    tf_reduce_sum0 (bcast Rmult 5 ApproxConv_output reshaped_betas).

Definition ABC (convolution_filters : tensor 4)
  (convolution_biases : option (tensor 1))
  (no_binary_filters no_ApproxConvLayers : nat) (strides : nat * nat)
  (padding : padding)
  : result ((store -> store) * (node (tensor 4) -> node (tensor 4)) * node R) :=
  let shift_parameters : node (tensor 2) := v_shift_parameters in
  let betas : node (tensor 2) := v_betas in
  ops <- ApproxConv no_binary_filters convolution_filters convolution_biases
           strides padding ;;
  let '(alphas_training_op, ApproxConvLayer, alphas_loss) := ops in
  Ok (alphas_training_op,
      ABCLayer no_ApproxConvLayers shift_parameters betas ApproxConvLayer,
      alphas_loss).

End Layers.

(** The variables right after [tf.global_variables_initializer()]:
    [alphas0] is the draw of [tf.random_normal] for [alphas]. *)
Definition initial_store (convolution_filters : tensor 4)
  (convolution_biases : option (tensor 1)) (no_binary_filters : nat)
  (no_ApproxConvLayers : nat) (alphas0 : tensor 2) : store :=
  mkStore convolution_filters
          (match convolution_biases with Some b => b | None => [] end)
          alphas0
          (repeat [0] no_binary_filters) (repeat [0] no_binary_filters)
          adam_beta1 adam_beta2
          (repeat [0] no_ApproxConvLayers) (repeat [1] no_ApproxConvLayers).

(** ** The loops of the training and evaluation cells *)

(** [for alpha_epoch in range(alpha_training_epochs):
       sess.run(alpha_training_op)] *)
Definition run_alpha_epochs (alpha_training_op : store -> store)
  (alpha_training_epochs : nat) : session unit :=
  fun s =>
    (tt, fold_left (fun s' _ => snd (run_op alpha_training_op s'))
           (py_range alpha_training_epochs) s).

(** [np.mean] of a list of scalars. *)
Definition np_mean (l : list R) : R := fold_right Rplus 0 l / INR (length l).

Section Evaluation.

(** A fed batch (images and labels), the dataset provider with its cursor,
    and the variables of the whole network. *)
Variables feed dataset variables : Type.

(** [mnist.validation.next_batch(batch_size)] *)
Variable next_batch : nat -> dataset -> feed * dataset.

(** [sess.run([accuracy, cross_entropy],
              feed_dict={x: b[0], y: b[1], keep_prob: 1.0})] *)
Variable run_metrics : variables -> feed -> R * R.

(** The evaluation loop at the end of an epoch; [batch] is the variable
    the training loop above it assigned last. *)
Definition evaluate_epoch (sess : variables) (batch : feed) (validation : dataset)
  (batch_size : nat) : R * R * dataset :=
  let '(loss_vals, acc_vals, validation') :=
    fold_left
      (fun (acc : list R * list R * dataset) (iteration : nat) =>
         let '(loss_vals, acc_vals, validation) := acc in
         let '(X_y_batch, validation) := next_batch batch_size validation in
         let '(acc_val, loss_val) := run_metrics sess batch in
         (loss_vals ++ [loss_val], acc_vals ++ [acc_val], validation))
      (seq 1 200) ([], [], validation) in
  (np_mean acc_vals, np_mean loss_vals, validation').

End Evaluation.

(** ** The helper layers of the test network *)

Definition nth_Z_error {A : Type} (z : Z) (l : list A) : option A :=
  if Z.ltb z 0 then None else nth_error l (Z.to_nat z).

(** The largest element of a list (0 for the empty list). *)
Definition max_of (l : list R) : R :=
  match l with
  | [] => 0
  | x :: l' => fold_left Rmax l' x
  end.

(** Reference semantics of [tf.nn.max_pool] (NHWC): the maximum over the
    elements of the window that lie inside the image. *)
Definition tf_max_pool (input : tensor 4) (ksize strides : list nat) (p : padding)
  : tensor 4 :=
  let kh := nth 1 ksize 1%nat in
  let kw := nth 2 ksize 1%nat in
  let sh := nth 1 strides 1%nat in
  let sw := nth 2 strides 1%nat in
  map (fun image : tensor 3 =>
    let h := length image in
    let w := length (hd [] image) in
    let c := length (hd [] (hd [] image)) in
    let top := Z.of_nat (pad_before p h kh sh) in
    let left := Z.of_nat (pad_before p w kw sw) in
    map (fun i =>
      map (fun j =>
        map (fun k =>
          max_of
            (flat_map (fun di =>
               flat_map (fun dj =>
                 match nth_Z_error (Z.of_nat (i * sh + di) - top) image with
                 | Some row =>
                     match nth_Z_error (Z.of_nat (j * sw + dj) - left) row with
                     | Some pixel => [nth k pixel 0]
                     | None => []
                     end
                 | None => []
                 end)
                 (seq 0 kw))
               (seq 0 kh)))
          (seq 0 c))
        (seq 0 (out_size p w kw sw)))
      (seq 0 (out_size p h kh sh)))
    input.

(** [conv2d(x, W)] and [max_pool_2x2(x)] of the utility cell. *)
Definition conv2d (x W : tensor 4) : tensor 4 :=
  tf_conv2d x W [1%nat; 1%nat; 1%nat; 1%nat] SAME.

Definition max_pool_2x2 (x : tensor 4) : tensor 4 :=
  tf_max_pool x [1%nat; 2%nat; 2%nat; 1%nat] [1%nat; 2%nat; 2%nat; 1%nat] SAME.

(** A tensor with the given sizes along its axes. *)
Fixpoint shaped (r : nat) (dims : list nat) : tensor r -> Prop :=
  match r with
  | O => fun _ => dims = []
  | S r' => fun l =>
      match dims with
      | [] => False
      | d :: ds => length l = d /\ Forall (shaped r' ds) l
      end
  end.

(** ** The Binary Filter Generator in float32 arithmetic

    A second embedding of [get_mean_stddev], [get_shifted_stddev] and
    [get_binary_filters], with every operation rounded as [tf.float32]
    rounds it.  The sign that [get_binary_filters] takes is decided by the
    last bit of the mean and of the offsets, so the claims about the members
    are settled on this embedding. *)

Module Float32.

(** IEEE 754 binary32 (the dtype [tf.float32]) and binary64 (Python's
    [float]), rounded to nearest, ties to even. *)
Definition float32 : Type := spec_float.
Definition py_float : Type := spec_float.

Definition add : float32 -> float32 -> float32 := SFadd 24 128.
Definition sub : float32 -> float32 -> float32 := SFsub 24 128.
Definition mul : float32 -> float32 -> float32 := SFmul 24 128.
Definition div : float32 -> float32 -> float32 := SFdiv 24 128.
Definition sqrt : float32 -> float32 := SFsqrt 24 128.

Definition of_Z (z : Z) : float32 := binary_normalize 24 128 z 0 false.
Definition of_nat (n : nat) : float32 := of_Z (Z.of_nat n).

Definition py_float_of_Z (z : Z) : py_float := binary_normalize 53 1024 z 0 false.

(** Python true division [x / d] of a float by an int. *)
Definition py_div (x : py_float) (d : Z) : result py_float :=
  if Z.eqb d 0 then Raise ZeroDivisionError
  else Ok (SFdiv 53 1024 x (py_float_of_Z d)).

(** A Python float converted to a [tf.float32] constant. *)
Definition of_py_float (x : py_float) : float32 :=
  match x with
  | S754_finite s m e => binary_normalize 24 128 (if s then Zneg m else Zpos m) e s
  | _ => x
  end.

(** The rational number a finite float stands for. *)
Definition to_Q (x : float32) : Q :=
  match x with
  | S754_finite s m e => (inject_Z (if s then Zneg m else Zpos m) * 2 ^ e)%Q
  | _ => 0%Q
  end.

Definition is_finite (x : float32) : bool :=
  match x with
  | S754_finite _ _ _ | S754_zero _ => true
  | _ => false
  end.


(** [tf.sign]: -1, 0 or 1 by the sign of the operand; a NaN stays a NaN. *)
Definition tf_sign (x : float32) : float32 :=
  match x with
  | S754_nan => S754_nan
  | S754_zero _ => S754_zero false
  | S754_infinity s | S754_finite s _ _ => of_Z (if s then -1 else 1)
  end.

(** Tensors of dtype [tf.float32], as nested lists. *)
Fixpoint tensor (r : nat) : Type :=
  match r with
  | O => float32
  | S r' => list (tensor r')
  end.

Fixpoint flatten (r : nat) : tensor r -> list float32 :=
  match r with
  | O => fun x => [x]
  | S r' => fun l => flat_map (flatten r') l
  end.

Fixpoint tmap (f : float32 -> float32) (r : nat) : tensor r -> tensor r :=
  match r with
  | O => fun x => f x
  | S r' => fun l => map (tmap f r') l
  end.

Fixpoint wrap (r : nat) (x : float32) : tensor r :=
  match r with
  | O => x
  | S r' => [wrap r' x]
  end.

Fixpoint bcast (f : float32 -> float32 -> float32) (r : nat)
  : tensor r -> tensor r -> tensor r :=
  match r with
  | O => fun x y => f x y
  | S r' => fun l1 l2 =>
      match is_singleton l1 with
      | Some a => map (fun b => bcast f r' a b) l2
      | None =>
          match is_singleton l2 with
          | Some b => map (fun a => bcast f r' a b) l1
          | None => zip_with (bcast f r') l1 l2
          end
      end
  end.

Definition tf_expand_dims0 {r : nat} (t : tensor r) : tensor (S r) := [t].

Fixpoint tf_tile (r : nat) : tensor r -> list nat -> tensor r :=
  match r with
  | O => fun x _ => x
  | S r' => fun l multiples =>
      match multiples with
      | [] => l
      | m :: ms => concat (repeat (map (fun t => tf_tile r' t ms) l) m)
      end
  end.

Fixpoint chunks (n size : nat) (l : list float32) : list (list float32) :=
  match n with
  | O => []
  | S n' => firstn size l :: chunks n' size (skipn size l)
  end.

Fixpoint build (r : nat) (dims : list nat) (data : list float32) : tensor r :=
  match r with
  | O => hd (S754_zero false) data
  | S r' =>
      match dims with
      | [] => []
      | d :: ds => map (build r' ds) (chunks d (prod_dims ds) data)
      end
  end.

Definition tf_reshape {r0 : nat} (t : tensor r0) (r : nat) (shape : list Z)
  : tensor r :=
  build r (infer_shape shape (length (flatten r0 t))) (flatten r0 t).

(** [tf.convert_to_tensor(range(n), dtype=tf.float32)] *)
Definition range_tensor (n : nat) : tensor 1 := map of_nat (py_range n).

Section Graph.

(** The values of the session's variables, and the kernel by which the
    tensor runtime adds up the elements of a reduction (the order of the
    additions is the runtime's choice). *)
Variable variables : Type.
Variable reduce_sum : list float32 -> float32.

Definition node (A : Type) : Type := variables -> A.

(** [tf.reduce_mean] over every axis. *)
Definition reduce_mean_all {r : nat} (t : tensor r) : float32 :=
  div (reduce_sum (flatten r t)) (of_nat (length (flatten r t))).

(** [tf.nn.moments(x, axes=range(rank))] *)
Definition tf_nn_moments {r : nat} (x : tensor r) : float32 * float32 :=
  let mean := reduce_mean_all x in
  let variance :=
    reduce_mean_all (tmap (fun y => mul (sub y mean) (sub y mean)) r x) in
  (mean, variance).

Definition get_mean_stddev {r : nat} (input_tensor : node (tensor r))
  : node float32 * node float32 :=
  let mean := fun s => fst (tf_nn_moments (input_tensor s)) in
  let variance := fun s => snd (tf_nn_moments (input_tensor s)) in
  let stddev := fun s => sqrt (variance s) in
  (mean, stddev).

Definition spreaded_deviation (no_filters : nat) : result (tensor 1) :=
  q <- py_div (py_float_of_Z 2) (Z.of_nat no_filters - 1) ;;
  Ok (tmap (fun x => add (of_Z (-1)) x) 1
        (tmap (fun x => mul (of_py_float q) x) 1 (range_tensor no_filters))).

Definition get_shifted_stddev (stddev : node float32) (no_filters : nat)
  : result (node (tensor 1)) :=
  spreaded <- spreaded_deviation no_filters ;;
  Ok (fun s => tmap (fun x => mul x (stddev s)) 1 spreaded).

Definition get_binary_filters {r : nat} (convolution_filters : node (tensor r))
  (no_filters : nat) : result (node (tensor (S r))) :=
  let '(mean, stddev) := get_mean_stddev convolution_filters in
  shifted_stddev <- get_shifted_stddev stddev no_filters ;;
  let mean_adjusted_filters : node (tensor r) :=
    fun s => tmap (fun w => sub w (mean s)) r (convolution_filters s) in
  let expanded_filters : node (tensor (S r)) :=
    fun s => tf_expand_dims0 (mean_adjusted_filters s) in
  let tiled_filters : node (tensor (S r)) :=
    fun s => tf_tile (S r) (expanded_filters s) (no_filters :: repeat 1%nat r) in
  let expanded_stddev : node (tensor (S r)) :=
    fun s => tf_reshape (r0 := 1) (shifted_stddev s) (S r) (lead_shape no_filters r) in
  let binarized_filters : node (tensor (S r)) :=
    fun s => tmap tf_sign (S r) (bcast add (S r) (tiled_filters s) (expanded_stddev s)) in
  Ok binarized_filters.

End Graph.






Definition rounded_quotient (M : nat) : float32 :=
  of_py_float (SFdiv 53 1024 (py_float_of_Z 2) (py_float_of_Z (Z.of_nat M - 1))).

Definition rounded_shift_offset (M i : nat) : float32 :=
  add (of_Z (-1)) (mul (rounded_quotient M) (of_nat i)).



(** The [i]-th of [M] evenly spaced offsets, as a rational number. *)
Definition exact_shift_offset (M i : nat) : Q :=
  (-1 + inject_Z (Z.of_nat i) * (2 / (inject_Z (Z.of_nat M) - 1)))%Q.

(** Decision procedures for the offsets of one [M]: every offset is finite
    and within [bound] of the exact one, and offsets [i] and [M - 1 - i]
    add up to at most [bound] in absolute value. *)
Definition eqb (x y : float32) : bool :=
  match x, y with
  | S754_zero s1, S754_zero s2 => Bool.eqb s1 s2
  | S754_infinity s1, S754_infinity s2 => Bool.eqb s1 s2
  | S754_nan, S754_nan => true
  | S754_finite s1 m1 e1, S754_finite s2 m2 e2 =>
      Bool.eqb s1 s2 && Pos.eqb m1 m2 && Z.eqb e1 e2
  | _, _ => false
  end.

Definition close_to (bound : Q) (x : float32) (q : Q) : bool :=
  is_finite x && Qle_bool (Qabs (to_Q x - q)) bound.

Definition check_offsets (bound : Q) (M : nat) : bool :=
  let q := rounded_quotient M in
  let shifts := map (fun i => add (of_Z (-1)) (mul q (of_nat i))) (seq 0 M) in
  eqb (hd S754_nan shifts) (of_Z (-1))
  && forallb (fun p => close_to bound (snd p) (exact_shift_offset M (fst p)))
       (combine (seq 0 M) shifts)
  && forallb (fun p => Qle_bool (Qabs (to_Q (fst p) + to_Q (snd p))) bound)
       (combine (rev shifts) shifts).

End Float32.

(** ** The quantities the specification names

    Written from the specification's wording, over the row-major list of
    elements; the theorems below relate them to the graph. *)

(** Arithmetic average of all elements. *)
Definition arithmetic_mean (l : list R) : R :=
  fold_right Rplus 0 l / INR (length l).

(** Square root of the average squared deviation from the mean. *)
Definition spec_stddev (l : list R) : R :=
  sqrt (arithmetic_mean (map (fun w => (w - arithmetic_mean l) * (w - arithmetic_mean l)) l)).

(** The [i]-th of [M] evenly spaced offsets. *)
Definition shift_offset (M i : nat) : R := -1 + INR i * (2 / (INR M - 1)).

(** sign(W - mean + shift_i * stddev), element-wise. *)
Definition spec_binary_member {r : nat} (W : tensor r) (M i : nat) : tensor r :=
  tmap (fun w => tf_sign (w - arithmetic_mean (flatten r W)
                          + shift_offset M i * spec_stddev (flatten r W))) r W.

(** Mean over all positions [j] of [(W[j] - sum_i alpha_i * B_i[j])^2]. *)
Definition spec_mse (W : list R) (B : list (list R)) (alpha : list R) : R :=
  sum_over (length W) (fun j =>
    let approx := sum_over (length B) (fun i => nth i alpha 0 * nth j (nth i B []) 0) in
    (nth j W 0 - approx) * (nth j W 0 - approx))
  / INR (length W).

(** The values of a variable of shape [(n, 1)], one row per entry. *)
Definition column (l : list R) : tensor 2 := map (fun a => [a]) l.

(** A vector with entry [i] replaced by [t]. *)
Definition set_entry (i : nat) (t : R) (l : list R) : list R :=
  firstn i l ++ t :: skipn (S i) l.

(** A filter bank of the given shape with every element 0. *)
Definition zero_bank (w h c_in c_out : nat) : tensor 4 :=
  repeat (repeat (repeat (repeat 0 c_out) c_in) h) w.

(** The element of a tensor at a multi-index (0 outside the tensor). *)
Fixpoint elem (r : nat) : tensor r -> list nat -> R :=
  match r with
  | O => fun x _ => x
  | S r' => fun l idx =>
      match idx with
      | [] => 0
      | i :: idx' =>
          match nth_error l i with
          | Some t => elem r' t idx'
          | None => 0
          end
      end
  end.

(** A multi-index inside the given sizes. *)
Definition in_bounds (idx dims : list nat) : Prop := Forall2 lt idx dims.


(** * Properties *)

(** ** Scalars *)

Lemma tf_sign_pos (x : R) : 0 < x -> tf_sign x = 1.
Proof. intros H. unfold tf_sign. destruct (Rlt_dec 0 x); [reflexivity | contradiction]. Qed.

Lemma tf_sign_neg (x : R) : x < 0 -> tf_sign x = -1.
Proof.
  intros H. unfold tf_sign.
  destruct (Rlt_dec 0 x); [lra |].
  destruct (Rlt_dec x 0); [reflexivity | contradiction].
Qed.

Lemma tf_sign_0 : tf_sign 0 = 0.
Proof.
  unfold tf_sign.
  destruct (Rlt_dec 0 0); [lra |].
  destruct (Rlt_dec 0 0); [lra | reflexivity].
Qed.

Lemma tf_sign_cases (x : R) : tf_sign x = 1 \/ tf_sign x = -1 \/ tf_sign x = 0.
Proof.
  unfold tf_sign.
  destruct (Rlt_dec 0 x); [now left |].
  destruct (Rlt_dec x 0); [right; now left | right; now right].
Qed.

Lemma tf_clip_inside (x : R) : 0 <= x <= 1 -> tf_clip_by_value x 0 1 = x.
Proof.
  intros [H0 H1]. unfold tf_clip_by_value.
  rewrite Rmin_left by assumption. now rewrite Rmax_left.
Qed.

Lemma tf_clip_below (x : R) : x <= 0 -> tf_clip_by_value x 0 1 = 0.
Proof.
  intros H. unfold tf_clip_by_value.
  rewrite Rmin_left by lra. now rewrite Rmax_right.
Qed.

Lemma tf_clip_above (x : R) : 1 <= x -> tf_clip_by_value x 0 1 = 1.
Proof.
  intros H. unfold tf_clip_by_value.
  rewrite Rmin_right by assumption. rewrite Rmax_left; lra.
Qed.

(** ** Lists *)

Lemma zip_with_repeat_map {A B C : Type} (f : A -> B -> C) (a : A) (l : list B) :
  zip_with f (repeat a (length l)) l = map (f a) l.
Proof. induction l as [| b l IH]; simpl; [reflexivity | now rewrite IH]. Qed.

Lemma zip_with_map_r {A B B' C : Type} (f : A -> B -> C) (g : B' -> B)
  (l1 : list A) (l2 : list B') :
  zip_with f l1 (map g l2) = zip_with (fun a b => f a (g b)) l1 l2.
Proof.
  revert l2; induction l1 as [| a l1 IH]; intros [| b l2]; simpl; try reflexivity.
  now rewrite IH.
Qed.

Lemma zip_with_map_l {A A' B C : Type} (f : A -> B -> C) (g : A' -> A)
  (l1 : list A') (l2 : list B) :
  zip_with f (map g l1) l2 = zip_with (fun a b => f (g a) b) l1 l2.
Proof.
  revert l2; induction l1 as [| a l1 IH]; intros [| b l2]; simpl; try reflexivity.
  now rewrite IH.
Qed.

Lemma zip_with_length {A B C : Type} (f : A -> B -> C) (l1 : list A) (l2 : list B) :
  length l1 = length l2 -> length (zip_with f l1 l2) = length l1.
Proof.
  revert l2; induction l1 as [| a l1 IH]; intros [| b l2]; simpl; intros H;
    try reflexivity; try discriminate.
  f_equal. apply IH. now injection H.
Qed.

Lemma zip_with_nth {A B C : Type} (f : A -> B -> C) (l1 : list A) (l2 : list B)
  (i : nat) (da : A) (db : B) (dc : C) :
  (i < length l1)%nat -> (i < length l2)%nat ->
  nth i (zip_with f l1 l2) dc = f (nth i l1 da) (nth i l2 db).
Proof.
  revert l2 i; induction l1 as [| a l1 IH]; intros [| b l2] [| i]; simpl;
    intros H1 H2; try lia; try reflexivity.
  apply IH; lia.
Qed.

Lemma chunks_unit (l : list R) :
  chunks (length l) 1 l = map (fun x => [x]) l.
Proof. induction l as [| x l IH]; simpl; [reflexivity | now rewrite IH]. Qed.

Lemma concat_repeat_singleton {A : Type} (a : A) (n : nat) :
  concat (repeat [a] n) = repeat a n.
Proof. induction n as [| n IH]; simpl; [reflexivity | now rewrite IH]. Qed.

(** ** Tensors *)

Lemma tmap_ext (f g : R -> R) (r : nat) (t : tensor r) :
  (forall x, f x = g x) -> tmap f r t = tmap g r t.
Proof.
  intros H. induction r as [| r IH]; simpl; [apply H |].
  apply map_ext. intros a. apply IH.
Qed.

Lemma tmap_tmap (f g : R -> R) (r : nat) (t : tensor r) :
  tmap f r (tmap g r t) = tmap (fun x => f (g x)) r t.
Proof.
  induction r as [| r IH]; simpl; [reflexivity |].
  rewrite map_map. apply map_ext. intros a. apply IH.
Qed.

Lemma flatten_tmap (f : R -> R) (r : nat) (t : tensor r) :
  flatten r (tmap f r t) = map f (flatten r t).
Proof.
  induction r as [| r IH]; simpl; [reflexivity |].
  induction t as [| a t IHt]; simpl; [reflexivity |].
  rewrite map_app, IH. f_equal. exact IHt.
Qed.

Lemma fold_right_Rplus_app (l1 l2 : list R) :
  fold_right Rplus 0 (l1 ++ l2) = fold_right Rplus 0 l1 + fold_right Rplus 0 l2.
Proof. induction l1 as [| x l1 IH]; simpl; [lra | rewrite IH; lra]. Qed.

Lemma reduce_sum_all_flatten (r : nat) (t : tensor r) :
  reduce_sum_all r t = fold_right Rplus 0 (flatten r t).
Proof.
  induction r as [| r IH]; simpl; [lra |].
  induction t as [| a t IHt]; simpl; [reflexivity |].
  rewrite fold_right_Rplus_app, IH, IHt. reflexivity.
Qed.

Lemma num_elements_flatten (r : nat) (t : tensor r) :
  num_elements r t = length (flatten r t).
Proof.
  induction r as [| r IH]; simpl; [reflexivity |].
  induction t as [| a t IHt]; simpl; [reflexivity |].
  rewrite length_app, IH, IHt. reflexivity.
Qed.

Lemma bcast_wrap_r (f : R -> R -> R) (r : nat) (t : tensor r) (x : R) :
  bcast f r t (wrap r x) = tmap (fun a => f a x) r t.
Proof.
  induction r as [| r IH]; simpl; [reflexivity |].
  destruct (is_singleton t) as [a |] eqn:E.
  - destruct t as [| a' [| ? ?]]; simpl in E; try discriminate.
    injection E as ->. simpl. now rewrite IH.
  - apply map_ext. intros a. apply IH.
Qed.

Lemma bcast_same_length (f : R -> R -> R) (r : nat) (l1 l2 : tensor (S r)) :
  length l1 = length l2 ->
  bcast f (S r) l1 l2 = zip_with (bcast f r) l1 l2.
Proof.
  intros H. simpl.
  destruct l1 as [| a [| a' l1]]; destruct l2 as [| b [| b' l2]]; simpl in *;
    try discriminate; reflexivity.
Qed.

Lemma tf_tile_ones (r : nat) (t : tensor r) :
  tf_tile r t (repeat 1%nat r) = t.
Proof.
  induction r as [| r IH]; simpl; [reflexivity |].
  rewrite app_nil_r. rewrite <- (map_id t) at 2.
  apply map_ext. intros a. apply IH.
Qed.

Lemma tf_tile_leading (r : nat) (t : tensor r) (n : nat) :
  tf_tile (S r) (tf_expand_dims0 t) (n :: repeat 1%nat r) = repeat t n.
Proof.
  unfold tf_expand_dims0. cbn [tf_tile map].
  rewrite tf_tile_ones. apply concat_repeat_singleton.
Qed.

Lemma prod_dims_ones (r : nat) : prod_dims (repeat 1%nat r) = 1%nat.
Proof.
  unfold prod_dims. induction r as [| r IH]; cbn [repeat fold_right]; lia.
Qed.

Lemma build_ones (r : nat) (x : R) : build r (repeat 1%nat r) [x] = wrap r x.
Proof.
  induction r as [| r IH]; [reflexivity |].
  cbn [repeat build wrap]. rewrite prod_dims_ones. cbn [chunks firstn map].
  now rewrite IH.
Qed.

Lemma infer_lead_shape (n r total : nat) :
  infer_shape (lead_shape n r) total = n :: repeat 1%nat r.
Proof.
  unfold infer_shape, lead_shape. cbn [map].
  replace (Z.eqb (Z.of_nat n) (-1)) with false by (symmetry; apply Z.eqb_neq; lia).
  rewrite Nat2Z.id. f_equal.
  generalize (Nat.div total (known_dims (Z.of_nat n :: repeat 1%Z r))). intros k.
  induction r as [| r IH]; simpl; [reflexivity | now rewrite IH].
Qed.

(** Reshaping a vector of [n] entries to [[n; 1; ...; 1]] wraps each entry. *)
Lemma tf_reshape_lead (r : nat) (t : tensor 1) :
  tf_reshape (r0 := 1) t (S r) (lead_shape (length t) r) = map (wrap r) t.
Proof.
  unfold tf_reshape. rewrite infer_lead_shape.
  assert (F : flatten 1 t = t).
  { induction t as [| x t IH]; simpl in *; [reflexivity | now rewrite IH]. }
  rewrite F. cbn [build]. rewrite prod_dims_ones, chunks_unit, map_map.
  apply map_ext. intros x. apply build_ones.
Qed.

(** ** Binary Filter Generator *)

Lemma spreaded_deviation_ok (M : nat) :
  M <> 1%nat ->
  spreaded_deviation M = Ok (map (shift_offset M) (seq 0 M)).
Proof.
  intros HM. unfold spreaded_deviation, py_div.
  replace (Z.eqb (Z.of_nat M - 1) 0) with false by (symmetry; apply Z.eqb_neq; lia).
  cbn [bind]. f_equal. unfold range_tensor, py_range. cbn [tmap].
  rewrite !map_map. apply map_ext. intros i. unfold shift_offset.
  rewrite minus_IZR, <- INR_IZR_INZ. lra.
Qed.

Lemma spreaded_deviation_one : spreaded_deviation 1 = Raise ZeroDivisionError.
Proof. reflexivity. Qed.

(** The graph of [get_binary_filters], evaluated: member [i] adds the
    [i]-th shifted deviation to the mean-adjusted bank and takes the sign. *)
Lemma get_binary_filters_value (r : nat) (W : node (tensor r)) (M : nat) :
  M <> 1%nat ->
  exists B, get_binary_filters W M = Ok B /\
    forall s, B s = map (fun i => spec_binary_member (W s) M i) (seq 0 M).
Proof.
  intros HM. unfold get_binary_filters, get_mean_stddev, get_shifted_stddev.
  rewrite (spreaded_deviation_ok M HM). cbn [bind].
  eexists. split; [reflexivity |]. intros s. cbv beta.
  rewrite tf_tile_leading.
  set (shifted := tmap _ 1 _).
  assert (L : length shifted = M).
  { unfold shifted. cbn [tmap]. now rewrite !length_map, length_seq. }
  rewrite <- L at 2. rewrite tf_reshape_lead.
  rewrite bcast_same_length by (now rewrite repeat_length, length_map).
  rewrite zip_with_map_r. rewrite <- L at 1. rewrite zip_with_repeat_map.
  cbn [tmap]. rewrite map_map. unfold shifted. cbn [tmap]. rewrite !map_map.
  apply map_ext. intros i.
  rewrite bcast_wrap_r, !tmap_tmap. unfold spec_binary_member.
  apply tmap_ext. intros w. f_equal.
  unfold tf_nn_moments. cbn [fst snd]. unfold reduce_mean_all, spec_stddev, arithmetic_mean.
  rewrite !reduce_sum_all_flatten, !num_elements_flatten, flatten_tmap, length_map.
  reflexivity.
Qed.

Lemma get_binary_filters_one (r : nat) (W : node (tensor r)) :
  get_binary_filters W 1 = Raise ZeroDivisionError.
Proof. reflexivity. Qed.

(** ** Banks whose elements are all zero *)

Lemma tmap_fixed (f : R -> R) (r : nat) (t : tensor r) :
  Forall (fun x => f x = x) (flatten r t) -> tmap f r t = t.
Proof.
  induction r as [| r IH]; simpl.
  - intros H. now inversion H.
  - induction t as [| a t IHt]; simpl; intros H; [reflexivity |].
    apply Forall_app in H. destruct H as [Ha Ht].
    now rewrite IH, IHt.
Qed.

Lemma sum_zeros (l : list R) :
  Forall (fun x => x = 0) l -> fold_right Rplus 0 l = 0.
Proof. induction 1 as [| x l Hx _ IH]; simpl; [reflexivity | rewrite Hx, IH; lra]. Qed.

Lemma mean_zeros (l : list R) :
  Forall (fun x => x = 0) l -> arithmetic_mean l = 0.
Proof. intros H. unfold arithmetic_mean. rewrite (sum_zeros l H). unfold Rdiv. lra. Qed.

Lemma stddev_zeros (l : list R) :
  Forall (fun x => x = 0) l -> spec_stddev l = 0.
Proof.
  intros H. unfold spec_stddev. rewrite (mean_zeros l H).
  rewrite mean_zeros; [apply sqrt_0 |].
  apply Forall_map. eapply Forall_impl; [| exact H].
  intros x Hx. simpl in Hx. rewrite Hx. lra.
Qed.

Lemma get_mean_stddev_flat (r : nat) (W : node (tensor r)) (s : store) :
  fst (get_mean_stddev W) s = arithmetic_mean (flatten r (W s)) /\
  snd (get_mean_stddev W) s = spec_stddev (flatten r (W s)).
Proof.
  unfold get_mean_stddev, tf_nn_moments. cbn [fst snd].
  unfold reduce_mean_all, spec_stddev, arithmetic_mean.
  rewrite !reduce_sum_all_flatten, !num_elements_flatten, flatten_tmap, length_map.
  split; reflexivity.
Qed.

(** On a bank of zeros the mean and the deviation vanish, every shifted
    deviation is 0, and [tf.sign] leaves each 0 in place: all members are
    the zero bank itself. *)
Lemma zero_bank_members (r : nat) (W : tensor r) (M i : nat) :
  Forall (fun x => x = 0) (flatten r W) -> spec_binary_member W M i = W.
Proof.
  intros H. unfold spec_binary_member.
  rewrite (mean_zeros _ H), (stddev_zeros _ H).
  apply tmap_fixed. eapply Forall_impl; [| exact H].
  intros x Hx. simpl in Hx. subst x.
  replace (0 - 0 + shift_offset M i * 0) with 0 by lra. apply tf_sign_0.
Qed.

Lemma Forall_flat_map_repeat {A B : Type} (P : B -> Prop) (f : A -> list B)
  (a : A) (n : nat) :
  Forall P (f a) -> Forall P (flat_map f (repeat a n)).
Proof.
  intros H. induction n as [| n IH]; simpl; [constructor |].
  apply Forall_app. now split.
Qed.

Lemma flatten_zero_bank (w h c_in c_out : nat) :
  Forall (fun x => x = 0) (flatten 4 (zero_bank w h c_in c_out)).
Proof.
  unfold zero_bank. cbn [flatten].
  do 4 apply Forall_flat_map_repeat.
  constructor; [reflexivity | constructor].
Qed.

(** C1, at the all-zero bank the claim names: with M = 2 the generator
    succeeds on the 1x1x1x2 bank of zeros, and both members consist of the
    value 0, which is neither +1 nor -1. *)
Theorem zero_bank_members_not_binary :
  exists B : node (tensor 5),
    get_binary_filters (constant (zero_bank 1 1 1 2)) 2 = Ok B /\
    forall s,
      flatten 5 (B s) = [0; 0; 0; 0] /\
      ~ Forall (fun x => x = 1 \/ x = -1) (flatten 5 (B s)).
Proof.
  destruct (get_binary_filters_value 4 (constant (zero_bank 1 1 1 2)) 2)
    as [B [HB Hval]]; [lia |].
  exists B. split; [exact HB |]. intros s.
  assert (E : flatten 5 (B s) = [0; 0; 0; 0]).
  { rewrite Hval. unfold constant. cbn [seq map].
    rewrite !zero_bank_members by apply flatten_zero_bank. reflexivity. }
  split; [exact E |].
  rewrite E. intros H. inversion H as [| x l [H1 | H1] _]; lra.
Qed.

(** The same value appears on banks that are not degenerate: for the
    two-element bank [-1; 1] (mean 0, deviation 1) and M = 2 the members
    are [-1; 0] and [0; 1]. *)
Lemma two_point_bank_members :
  exists B : node (tensor 2),
    get_binary_filters (constant ([-1; 1] : tensor 1)) 2 = Ok B /\
    forall s, B s = [[-1; 0]; [0; 1]].
Proof.
  destruct (get_binary_filters_value 1 (constant ([-1; 1] : tensor 1)) 2)
    as [B [HB Hval]]; [lia |].
  exists B. split; [exact HB |]. intros s. rewrite Hval.
  unfold constant, spec_binary_member. cbn [seq map flatten flat_map app tmap].
  assert (Hm : arithmetic_mean [-1; 1] = 0).
  { unfold arithmetic_mean. simpl. lra. }
  assert (Hs : spec_stddev [-1; 1] = 1).
  { unfold spec_stddev. rewrite Hm. unfold arithmetic_mean. simpl.
    replace ((-1 - 0) * (-1 - 0) + ((1 - 0) * (1 - 0) + 0)) with 2 by lra.
    replace (2 / (1 + 1)) with 1 by lra. apply sqrt_1. }
  rewrite Hm, Hs. unfold shift_offset. simpl.
  repeat f_equal.
  - apply tf_sign_neg. lra.
  - replace (1 - 0 + (-1 + 0 * (2 / (1 + 1 - 1))) * 1) with 0 by lra. apply tf_sign_0.
  - replace (-1 - 0 + (-1 + 1 * (2 / (1 + 1 - 1))) * 1) with 0 by lra. apply tf_sign_0.
  - apply tf_sign_pos. lra.
Qed.

(** Where the shifted value is not 0 the member is +1 or -1; in general it
    is one of -1, 0, +1. *)
Lemma binary_member_values (r : nat) (W : tensor r) (M i : nat) :
  Forall (fun b => b = 1 \/ b = -1 \/ b = 0) (flatten r (spec_binary_member W M i)).
Proof.
  unfold spec_binary_member. rewrite flatten_tmap. apply Forall_map.
  apply Forall_forall. intros w _. apply tf_sign_cases.
Qed.

(** C8, the 5x5x1x32 bank of zeros with M = 5: the estimator returns mean
    0 and deviation 0, the generator succeeds, and its five members are
    identical; each is the zero bank itself, so every element is 0. *)
Theorem zero_bank_5x5x1x32 :
  (forall s,
     fst (get_mean_stddev (constant (zero_bank 5 5 1 32))) s = 0 /\
     snd (get_mean_stddev (constant (zero_bank 5 5 1 32))) s = 0) /\
  exists B : node (tensor 5),
    get_binary_filters (constant (zero_bank 5 5 1 32)) 5 = Ok B /\
    forall s, B s = repeat (zero_bank 5 5 1 32) 5.
Proof.
  split.
  - intros s.
    destruct (get_mean_stddev_flat 4 (constant (zero_bank 5 5 1 32)) s) as [-> ->].
    unfold constant.
    split; [apply mean_zeros | apply stddev_zeros]; apply flatten_zero_bank.
  - destruct (get_binary_filters_value 4 (constant (zero_bank 5 5 1 32)) 5)
      as [B [HB Hval]]; [lia |].
    exists B. split; [exact HB |]. intros s. rewrite Hval.
    unfold constant. cbn [seq map repeat].
    rewrite !zero_bank_members by apply flatten_zero_bank. reflexivity.
Qed.

(** ** Reshaping and reducing, at the ranks the Alpha Fitter uses *)

Lemma flatten_vector (l : tensor 1) : flatten 1 l = l.
Proof. induction l as [| x l IH]; simpl in *; [reflexivity | now rewrite IH]. Qed.

Lemma build_vector (l : list R) : build 1 [length l] l = l.
Proof.
  cbn [build]. change (prod_dims []) with 1%nat.
  rewrite chunks_unit, map_map. cbn [build hd]. apply map_id.
Qed.

Lemma tf_reshape_flat (r : nat) (t : tensor r) :
  tf_reshape t 1 [(-1)%Z] = flatten r t.
Proof.
  unfold tf_reshape, infer_shape, known_dims.
  change (Z.eqb (-1) (-1)) with true. cbn [map filter negb].
  change (Z.eqb (-1) (-1)) with true. cbn iota.
  change (prod_dims []) with 1%nat. rewrite Nat.div_1_r. apply build_vector.
Qed.

Lemma chunks_concat (rows : list (list R)) (n : nat) :
  Forall (fun row => length row = n) rows ->
  chunks (length rows) n (concat rows) = rows.
Proof.
  induction 1 as [| row rows Hrow _ IH]; simpl; [reflexivity |].
  subst n.
  rewrite firstn_app, firstn_all, Nat.sub_diag, firstn_O, app_nil_r.
  rewrite skipn_app, skipn_all, Nat.sub_diag, skipn_O. simpl.
  now rewrite IH.
Qed.

Lemma length_concat_uniform (rows : list (list R)) (n : nat) :
  Forall (fun row => length row = n) rows ->
  length (concat rows) = (length rows * n)%nat.
Proof.
  induction 1 as [| row rows Hrow _ IH]; simpl; [reflexivity |].
  rewrite length_app, IH, Hrow. reflexivity.
Qed.

Lemma infer_rows_shape (M total : nat) :
  infer_shape [Z.of_nat M; (-1)%Z] total = [M; Nat.div total M].
Proof.
  unfold infer_shape, known_dims. cbn [map filter].
  replace (Z.eqb (Z.of_nat M) (-1)) with false by (symmetry; apply Z.eqb_neq; lia).
  change (Z.eqb (-1) (-1)) with true. cbn [negb map].
  unfold prod_dims. cbn [fold_right]. now rewrite Nat2Z.id, Nat.mul_1_r.
Qed.

Lemma tf_reshape_rows (r : nat) (B : tensor (S r)) (M n : nat) :
  (1 <= M)%nat -> length B = M ->
  Forall (fun b => length (flatten r b) = n) B ->
  tf_reshape B 2 [Z.of_nat M; (-1)%Z] = map (flatten r) B.
Proof.
  intros HM HB Hn.
  assert (Hrows : Forall (fun row => length row = n) (map (flatten r) B))
    by (now apply Forall_map).
  assert (HB' : @length (tensor r) B = M) by exact HB.
  unfold tf_reshape. cbn [flatten]. rewrite flat_map_concat_map.
  rewrite (length_concat_uniform _ n Hrows), length_map, HB', infer_rows_shape.
  replace (Nat.div (M * n) M) with n by (rewrite Nat.mul_comm, Nat.div_mul; lia).
  change (build 2 [M; n] (concat (map (flatten r) B)))
    with (map (build 1 [n]) (chunks M (prod_dims [n]) (concat (map (flatten r) B)))).
  replace (prod_dims [n]) with n by (unfold prod_dims; cbn [fold_right]; lia).
  rewrite <- HB', <- (length_map (flatten r) B), (chunks_concat _ n Hrows).
  rewrite <- (map_id (map (flatten r) B)) at 2.
  apply map_ext_in. intros row Hin.
  rewrite Forall_forall in Hrows. rewrite <- (Hrows row Hin).
  apply build_vector.
Qed.

Lemma sum_over_S (n : nat) (f : nat -> R) :
  sum_over (S n) f = f 0%nat + sum_over n (fun j => f (S j)).
Proof. unfold sum_over. cbn [seq map fold_right]. now rewrite <- seq_shift, map_map. Qed.

Lemma sum_over_ext (n : nat) (f g : nat -> R) :
  (forall j, (j < n)%nat -> f j = g j) -> sum_over n f = sum_over n g.
Proof.
  intros H. unfold sum_over. f_equal. apply map_ext_in.
  intros j Hj. apply in_seq in Hj. apply H. lia.
Qed.

Lemma sum_as_sum_over {A : Type} (g : A -> R) (l : list A) (d : A) :
  fold_right Rplus 0 (map g l) = sum_over (length l) (fun i => g (nth i l d)).
Proof.
  induction l as [| a l IH]; [reflexivity |].
  cbn [length]. rewrite sum_over_S. simpl. now rewrite IH.
Qed.

Lemma bcast_vectors (f : R -> R -> R) (l1 l2 : tensor 1) :
  length l1 = length l2 -> bcast f 1 l1 l2 = zip_with f l1 l2.
Proof. intros H. now rewrite bcast_same_length. Qed.

(** Adding up rows of equal length adds them position by position. *)
Lemma tf_reduce_sum0_rows (rows : list (list R)) (n : nat) :
  rows <> [] ->
  Forall (fun row : list R => length row = n) rows ->
  length (tf_reduce_sum0 (r := 1) rows) = n /\
  forall j, (j < n)%nat ->
    nth j (tf_reduce_sum0 (r := 1) rows) 0 =
    fold_right Rplus 0 (map (fun row => nth j row 0) rows).
Proof.
  intros Hne H. induction H as [| row rows Hrow Hrows IH]; [contradiction |].
  unfold tf_reduce_sum0 in *. cbn [fold_right map].
  destruct rows as [| row' rows'].
  - cbn [fold_right map]. rewrite (bcast_wrap_r Rplus 1 row 0). cbn [tmap tensor].
    split; [now rewrite length_map |].
    intros j Hj. rewrite (nth_indep _ 0 (0 + 0)) by (rewrite length_map, Hrow; exact Hj).
    now rewrite (map_nth (fun a => a + 0)).
  - destruct IH as [IHl IHn]; [discriminate |].
    rewrite bcast_vectors by (rewrite IHl; exact Hrow).
    split; [rewrite zip_with_length; [exact Hrow | now rewrite IHl] |].
    intros j Hj.
    rewrite (zip_with_nth _ _ _ _ 0 0 0);
      [now rewrite IHn | now rewrite Hrow | now rewrite IHl].
Qed.

Lemma nth_map_scale (a : R) (row : list R) (j : nat) :
  nth j (map (Rmult a) row) 0 = a * nth j row 0.
Proof.
  revert j. induction row as [| b row IH]; intros [| j]; simpl; try lra. apply IH.
Qed.

Lemma zip_with_Forall_length {A : Type} (f : A -> list R -> list R) (n : nat)
  (l1 : list A) (l2 : list (list R)) :
  (forall a row, length row = n -> length (f a row) = n) ->
  Forall (fun row : list R => length row = n) l2 ->
  Forall (fun row : list R => length row = n) (zip_with f l1 l2).
Proof.
  intros Hf H. revert l1. induction H as [| row l2 Hrow _ IH]; intros [| a l1]; simpl;
    constructor; auto.
Qed.

(** The weighted sum of the rows, position by position. *)
Lemma weighted_sum_filters_value (al : list R) (rows : list (list R)) (M n : nat) :
  (1 <= M)%nat -> length al = M -> length rows = M ->
  Forall (fun row : list R => length row = n) rows ->
  length (weighted_sum_filters (column al) rows) = n /\
  forall j, (j < n)%nat ->
    nth j (weighted_sum_filters (column al) rows) 0
    = sum_over M (fun i => nth i al 0 * nth j (nth i rows []) 0).
Proof.
  intros HM Hal Lrows Hrows. unfold weighted_sum_filters.
  assert (Lcol : length (column al) = length rows).
  { unfold column. rewrite length_map, Hal. symmetry. exact Lrows. }
  rewrite (bcast_same_length Rmult 1 (column al) rows Lcol).
  unfold column. rewrite zip_with_map_l.
  change (zip_with (fun (a : R) (b : tensor 1) => bcast Rmult 1 [a] b) al rows)
    with (zip_with (fun (a : R) (row : list R) => map (Rmult a) row) al rows).
  set (scaled := zip_with _ al rows).
  assert (Lscaled : length scaled = M).
  { unfold scaled. rewrite zip_with_length; [exact Hal | now rewrite Hal, Lrows]. }
  assert (Hscaled : Forall (fun row : list R => length row = n) scaled).
  { apply zip_with_Forall_length; [| exact Hrows].
    intros a row Hrow. now rewrite length_map. }
  assert (Hne : scaled <> []).
  { intros E. rewrite E in Lscaled. simpl in Lscaled. lia. }
  destruct (tf_reduce_sum0_rows scaled n Hne Hscaled) as [Lws Hws].
  split; [exact Lws |].
  intros j Hj. rewrite (Hws j Hj).
  rewrite (sum_as_sum_over (fun row : list R => nth j row 0) scaled []).
  rewrite Lscaled. apply sum_over_ext. intros i Hi.
  unfold scaled.
  rewrite (zip_with_nth _ al rows i 0 [] []) by (rewrite ?Hal, ?Lrows; exact Hi).
  apply nth_map_scale.
Qed.

(** The loss node of the Alpha Fitter, evaluated on well-shaped operands. *)
Lemma alphas_loss_value_mse (r : nat) (W : tensor r) (B : tensor (S r)) (M : nat)
  (al : list R) :
  (1 <= M)%nat -> length B = M -> length al = M ->
  Forall (fun b => length (flatten r b) = length (flatten r W)) B ->
  alphas_loss_value W B M (column al) = spec_mse (flatten r W) (map (flatten r) B) al.
Proof.
  intros HM HB Hal Hn.
  unfold alphas_loss_value.
  rewrite tf_reshape_flat, (tf_reshape_rows r B M _ HM HB Hn).
  set (Wf := flatten r W) in *. set (rows := map (flatten r) B).
  assert (Hrows : Forall (fun row : list R => length row = length Wf) rows)
    by (now apply Forall_map).
  assert (Lrows : length rows = M)
    by (unfold rows; rewrite length_map; exact HB).
  destruct (weighted_sum_filters_value al rows M (length Wf) HM Hal Lrows Hrows)
    as [Lws Hws].
  set (ws := weighted_sum_filters (column al) rows) in *.
  rewrite bcast_vectors by (symmetry; exact Lws).
  cbn [tmap tensor]. unfold tf_reduce_mean0, spec_mse.
  rewrite length_map, zip_with_length by (symmetry; exact Lws).
  f_equal.
  rewrite (sum_as_sum_over (fun d => d * d) (zip_with Rminus Wf ws) 0).
  rewrite zip_with_length by (symmetry; exact Lws).
  apply sum_over_ext. intros j Hj. cbv zeta.
  rewrite (zip_with_nth Rminus Wf ws j 0 0 0) by (rewrite ?Lws; exact Hj).
  now rewrite (Hws j Hj), Lrows.
Qed.

(** C4: the scalar loss the Alpha Fitter returns is the mean, over all
    positions j of the flattened FilterBank, of
    (W_flat[j] - sum_i alpha_i * B_i_flat[j])^2, for M >= 1 members of the
    FilterBank's size and an AlphaVector of M entries (shape (M, 1)). *)
Theorem alphas_loss_is_mse (r : nat) (W : node (tensor r)) (B : node (tensor (S r)))
  (M : nat) (al : list R) (s : store) :
  (1 <= M)%nat -> length (B s) = M -> length al = M ->
  Forall (fun b => length (flatten r b) = length (flatten r (W s))) (B s) ->
  v_alphas s = column al ->
  snd (get_alphas W B M) s
  = sum_over (length (flatten r (W s))) (fun j =>
      let approx := sum_over M (fun i => nth i al 0 * nth j (flatten r (nth i (B s) (wrap r 0))) 0) in
      (nth j (flatten r (W s)) 0 - approx) * (nth j (flatten r (W s)) 0 - approx))
    / INR (length (flatten r (W s))).
Proof.
  intros HM HB Hal Hn Hv.
  unfold get_alphas. cbn [snd]. rewrite Hv.
  rewrite (alphas_loss_value_mse r (W s) (B s) M al HM HB Hal Hn).
  unfold spec_mse. rewrite length_map.
  assert (HB' : @length (tensor r) (B s) = M) by exact HB. rewrite HB'.
  f_equal. apply sum_over_ext. intros j Hj. cbv zeta.
  assert (E : sum_over M (fun i => nth i al 0 * nth j (nth i (map (flatten r) (B s)) []) 0)
            = sum_over M (fun i => nth i al 0 * nth j (flatten r (nth i (B s) (wrap r 0))) 0)).
  { apply sum_over_ext. intros i Hi. do 2 f_equal.
    rewrite (nth_indep _ [] (flatten r (wrap r 0))) by (rewrite length_map, HB'; exact Hi).
    apply map_nth. }
  now rewrite E.
Qed.

Lemma alphas_loss_is_mse_witness :
  (1 <= 2)%nat /\
  snd (get_alphas (constant ([1; 2] : tensor 1))
                  (constant ([[1; -1]; [1; 1]] : tensor 2)) 2)
      (mkStore [] [] (column [3; 4]) [] [] 0 0 [] [])
  = sum_over 2 (fun j =>
      let approx := sum_over 2 (fun i =>
        nth i [3; 4] 0 * nth j (flatten 1 (nth i [[1; -1]; [1; 1]] (wrap 1 0))) 0) in
      (nth j [1; 2] 0 - approx) * (nth j [1; 2] 0 - approx))
    / INR 2.
Proof.
  split; [lia |].
  apply (alphas_loss_is_mse 1 (constant ([1; 2] : tensor 1))
           (constant ([[1; -1]; [1; 1]] : tensor 2)) 2 [3; 4]
           (mkStore [] [] (column [3; 4]) [] [] 0 0 [] []));
    [lia | reflexivity | reflexivity | repeat constructor | reflexivity].
Defined.

(** ** The training operation follows the gradient of the loss *)

Lemma derivable_pt_lim_ext (f g : R -> R) (x l : R) :
  (forall t, f t = g t) -> derivable_pt_lim f x l -> derivable_pt_lim g x l.
Proof.
  intros E H eps Heps. destruct (H eps Heps) as [d Hd]. exists d.
  intros h Hh Hlt. rewrite <- !E. now apply Hd.
Qed.

Lemma derivable_pt_lim_sum_over (n : nat) (f : nat -> R -> R) (f' : nat -> R) (x : R) :
  (forall j, (j < n)%nat -> derivable_pt_lim (f j) x (f' j)) ->
  derivable_pt_lim (fun t => sum_over n (fun j => f j t)) x (sum_over n f').
Proof.
  revert f f'. induction n as [| n IH]; intros f f' H.
  - apply (derivable_pt_lim_const 0).
  - rewrite sum_over_S.
    apply (derivable_pt_lim_ext (fun t => f 0%nat t + sum_over n (fun j => f (S j) t))).
    + intros t. now rewrite sum_over_S.
    + apply (derivable_pt_lim_plus (f 0%nat) (fun t => sum_over n (fun j => f (S j) t))).
      * apply H. lia.
      * apply (IH (fun j => f (S j)) (fun j => f' (S j))). intros j Hj. apply H. lia.
Qed.

Lemma sum_over_scal (n : nat) (c : R) (f : nat -> R) :
  c * sum_over n f = sum_over n (fun j => c * f j).
Proof.
  revert f. induction n as [| n IH]; intros f.
  - unfold sum_over. simpl. lra.
  - rewrite !sum_over_S, <- IH. lra.
Qed.

Lemma sum_over_zero (n : nat) : sum_over n (fun _ => 0) = 0.
Proof.
  induction n as [| n IH]; [reflexivity |].
  rewrite sum_over_S, IH. lra.
Qed.

Lemma sum_over_single (n i : nat) (c : nat -> R) :
  (i < n)%nat ->
  sum_over n (fun k => if Nat.eqb k i then c k else 0) = c i.
Proof.
  revert i c. induction n as [| n IH]; intros i c Hi; [lia |].
  rewrite sum_over_S. destruct i as [| i].
  - cbn [Nat.eqb]. rewrite sum_over_zero. lra.
  - cbn [Nat.eqb]. rewrite (IH i (fun k => c (S k))) by lia. lra.
Qed.

Lemma length_set_entry (i : nat) (t : R) (l : list R) :
  (i < length l)%nat -> length (set_entry i t l) = length l.
Proof.
  intros H. unfold set_entry.
  rewrite length_app, length_firstn. cbn [length]. rewrite length_skipn. lia.
Qed.

Lemma nth_set_entry (i k : nat) (t : R) (l : list R) :
  (i < length l)%nat ->
  nth k (set_entry i t l) 0 = if Nat.eqb k i then t else nth k l 0.
Proof.
  revert i k. induction l as [| a l IH]; intros i k H; [simpl in H; lia |].
  destruct i as [| i]; destruct k as [| k]; try reflexivity.
  unfold set_entry in *. cbn [firstn skipn app nth Nat.eqb].
  apply IH. simpl in H. lia.
Qed.

Lemma set_entry_same (i : nat) (l : list R) :
  (i < length l)%nat -> set_entry i (nth i l 0) l = l.
Proof.
  revert i. induction l as [| a l IH]; intros i H; [simpl in H; lia |].
  destruct i as [| i]; [reflexivity |].
  unfold set_entry in *. cbn [firstn skipn app nth]. f_equal.
  apply IH. simpl in H. lia.
Qed.

Lemma fold_right_zip_mult (u v : list R) :
  length u = length v ->
  fold_right Rplus 0 (zip_with Rmult u v)
  = sum_over (length u) (fun j => nth j u 0 * nth j v 0).
Proof.
  intros H. rewrite <- (map_id (zip_with Rmult u v)).
  rewrite (sum_as_sum_over (fun x => x) _ 0), zip_with_length by exact H.
  apply sum_over_ext. intros j Hj.
  apply (zip_with_nth Rmult u v j 0 0 0); [exact Hj | now rewrite <- H].
Qed.

(** X9: on well-shaped operands, entry [i] of the gradient the training
    operation hands to Adam is the derivative of the loss in [alpha_i]:
    [training_op] is a step of Adam on the gradient of [alphas_loss]. *)
Lemma alphas_gradient_is_derivative (r : nat) (W : tensor r) (B : tensor (S r))
  (M : nat) (al : list R) (i : nat) :
  (1 <= M)%nat -> length B = M -> length al = M ->
  Forall (fun b => length (flatten r b) = length (flatten r W)) B ->
  (i < M)%nat ->
  derivable_pt_lim
    (fun t => alphas_loss_value W B M (column (set_entry i t al)))
    (nth i al 0)
    (nth 0 (nth i (alphas_gradient W B M (column al)) []) 0).
Proof.
  intros HM HB Hal Hn Hi.
  assert (Hi' : (i < length al)%nat) by (rewrite Hal; exact Hi).
  apply (derivable_pt_lim_ext
           (fun t => spec_mse (flatten r W) (map (flatten r) B) (set_entry i t al))).
  { intros t. symmetry. apply alphas_loss_value_mse; try assumption.
    now rewrite length_set_entry. }
  unfold alphas_gradient.
  rewrite tf_reshape_flat, (tf_reshape_rows r B M _ HM HB Hn).
  set (Wf := flatten r W) in *. set (rows := map (flatten r) B).
  assert (Hrows : Forall (fun row : list R => length row = length Wf) rows)
    by (now apply Forall_map).
  assert (Lrows : length rows = M)
    by (unfold rows; rewrite length_map; exact HB).
  destruct (weighted_sum_filters_value al rows M (length Wf) HM Hal Lrows Hrows)
    as [Lws Hws].
  set (ws := weighted_sum_filters (column al) rows) in *.
  set (n := length Wf) in *.
  pose (Bi := fun j => nth j (nth i rows []) 0).
  pose (u := fun (j : nat) (t : R) =>
               nth j Wf 0
               - sum_over M (fun k => nth k (set_entry i t al) 0 * nth j (nth k rows []) 0)).
  assert (Du : forall j, derivable_pt_lim (u j) (nth i al 0) (0 - Bi j * 1)).
  { intros j. unfold u.
    apply (derivable_pt_lim_minus (fun _ => nth j Wf 0)
             (fun t => sum_over M (fun k => nth k (set_entry i t al) 0
                                            * nth j (nth k rows []) 0)));
      [apply derivable_pt_lim_const |].
    unfold Bi. rewrite <- (sum_over_single M i (fun k => nth j (nth k rows []) 0 * 1) Hi).
    apply (derivable_pt_lim_sum_over M
             (fun k t => nth k (set_entry i t al) 0 * nth j (nth k rows []) 0)).
    intros k Hk. destruct (Nat.eqb k i) eqn:E.
    - apply (derivable_pt_lim_ext (fun t => nth j (nth k rows []) 0 * t)).
      + intros t. rewrite nth_set_entry, E by exact Hi'. lra.
      + apply (derivable_pt_lim_scal (fun t => t)). apply derivable_pt_lim_id.
    - apply (derivable_pt_lim_ext (fun _ => nth k al 0 * nth j (nth k rows []) 0)).
      + intros t. now rewrite nth_set_entry, E by exact Hi'.
      + apply derivable_pt_lim_const. }
  assert (Ux : forall j, (j < n)%nat -> u j (nth i al 0) = nth j Wf 0 - nth j ws 0).
  { intros j Hj. unfold u. now rewrite set_entry_same, (Hws j Hj). }
  apply (derivable_pt_lim_ext
           (fun t => / INR n * sum_over n (fun j => u j t * u j t))).
  { intros t. unfold spec_mse, u. fold Wf. fold n. cbv zeta. rewrite Lrows.
    unfold Rdiv. apply Rmult_comm. }
  assert (L : / INR n * sum_over n (fun j => (0 - Bi j * 1) * u j (nth i al 0)
                                             + u j (nth i al 0) * (0 - Bi j * 1))
              = nth 0 (nth i (map (fun row : tensor 1 =>
                    [fold_right Rplus 0
                       (bcast Rmult 1
                          (tmap (fun d => / INR (length (bcast Rminus 1 Wf ws))
                                          * (2 * d) * -1) 1 (bcast Rminus 1 Wf ws))
                          row)]) rows) []) 0).
  { rewrite (bcast_vectors Rminus Wf ws) by (symmetry; exact Lws).
    assert (Ld : length (zip_with Rminus Wf ws) = n)
      by (apply zip_with_length; symmetry; exact Lws).
    rewrite Ld. cbn [tmap tensor].
    rewrite (nth_indep _ [] [fold_right Rplus 0
               (bcast Rmult 1 (map (fun d => / INR n * (2 * d) * -1)
                                 (zip_with Rminus Wf ws)) [])])
      by (rewrite length_map, Lrows; exact Hi).
    rewrite (map_nth (fun row : list R => [fold_right Rplus 0
               (bcast Rmult 1 (map (fun d => / INR n * (2 * d) * -1)
                                 (zip_with Rminus Wf ws)) row)]) rows [] i).
    cbn [nth].
    assert (Lrow : length (nth i rows []) = n).
    { rewrite Forall_forall in Hrows. apply Hrows. apply nth_In.
      rewrite Lrows. exact Hi. }
    assert (Lup : length (map (fun d => / INR n * (2 * d) * -1) (zip_with Rminus Wf ws))
                  = length (nth i rows []))
      by (now rewrite length_map, Ld, Lrow).
    rewrite (bcast_vectors Rmult _ _ Lup), (fold_right_zip_mult _ _ Lup).
    rewrite Lup, Lrow, sum_over_scal.
    apply sum_over_ext. intros j Hj. rewrite (Ux j Hj).
    rewrite (nth_indep (map (fun d => / INR n * (2 * d) * -1) (zip_with Rminus Wf ws))
               0 ((fun d => / INR n * (2 * d) * -1) 0))
      by (rewrite Lup, Lrow; exact Hj).
    rewrite (map_nth (fun d => / INR n * (2 * d) * -1)).
    rewrite (zip_with_nth Rminus Wf ws j 0 0 0) by (rewrite ?Lws; exact Hj).
    unfold Bi. ring. }
  rewrite <- L.
  apply (derivable_pt_lim_scal (fun t => sum_over n (fun j => u j t * u j t))).
  apply (derivable_pt_lim_sum_over n (fun j t => u j t * u j t)).
  intros j Hj. apply (derivable_pt_lim_mult (u j) (u j)); apply Du.
Qed.

(** ** Approximate Convolution Layer *)

Lemma flatten_column (l : list R) : flatten 2 (column l) = l.
Proof. induction l as [| a l IH]; simpl in *; [reflexivity | now rewrite IH]. Qed.

Lemma tf_reshape_column_lead (r : nat) (l : list R) :
  tf_reshape (column l) (S r) (lead_shape (length l) r) = map (wrap r) l.
Proof.
  rewrite <- (tf_reshape_lead r l). unfold tf_reshape.
  now rewrite flatten_column, flatten_vector.
Qed.

Lemma zip_with_map_seq {A B C : Type} (f : A -> B -> C) (g : nat -> A)
  (l : list B) (d : B) (a : nat) :
  zip_with f (map g (seq a (length l))) l
  = map (fun i => f (g i) (nth (i - a) l d)) (seq a (length l)).
Proof.
  revert a. induction l as [| b l IH]; intros a; [reflexivity |].
  cbn [length seq map zip_with]. rewrite Nat.sub_diag. cbn [nth]. f_equal.
  rewrite IH. apply map_ext_in. intros i Hi. apply in_seq in Hi.
  replace (i - a)%nat with (S (i - S a)) by lia. reflexivity.
Qed.

Lemma tf_reduce_sum0_single (r : nat) (t : tensor r) :
  tf_reduce_sum0 (r := r) [t] = tmap (fun a => a + 0) r t.
Proof. unfold tf_reduce_sum0. cbn [fold_right]. apply bcast_wrap_r. Qed.

Section LayerProperties.

Variable conv2d : tensor 4 -> tensor 4 -> list nat -> padding -> tensor 4.

(** The forward closure, evaluated: every branch is the convolution with
    its binary filter plus the biases, scaled by its alpha; the branches
    are added up. *)
Lemma ApproxConvLayer_value (no_filters : nat) (binary_filters : node (tensor 5))
  (alphas : node (tensor 2)) (biases : operand) (strides : nat * nat)
  (pad : padding) (input_tensor : node (tensor 4)) (s : store) (al : list R) :
  alphas s = column al -> length al = no_filters ->
  ApproxConvLayer conv2d no_filters binary_filters alphas biases strides pad
    input_tensor s
  = tf_reduce_sum0 (r := 4)
      (map (fun i =>
              tmap (fun c => c * nth i al 0) 4
                (add_biases
                   (conv2d (input_tensor s) (nth i (binary_filters s) [])
                      [1%nat; fst strides; snd strides; 1%nat] pad)
                   biases s))
           (seq 0 no_filters)).
Proof.
  intros Hal Hlen. unfold ApproxConvLayer. cbv zeta. f_equal.
  rewrite Hal, <- Hlen, tf_reshape_column_lead.
  set (g := fun index : nat => add_biases _ biases s).
  assert (L : length (map g (py_range (length al))) = length (map (wrap 4) al)).
  { unfold py_range. now rewrite !length_map, length_seq. }
  rewrite (bcast_same_length Rmult 4 _ _ L).
  rewrite zip_with_map_r. unfold py_range.
  rewrite (zip_with_map_seq _ g al 0 0%nat).
  apply map_ext. intros i. rewrite Nat.sub_0_r. apply bcast_wrap_r.
Qed.

Lemma ApproxConv_one (W : tensor 4) (b : option (tensor 1)) (strides : nat * nat)
  (pad : padding) :
  ApproxConv conv2d 1 W b strides pad = Raise ZeroDivisionError.
Proof. reflexivity. Qed.

(** C6 as the code has it: no layer is constructed with M = 1 (the shift
    spacing divides by zero), and the forward closure run on a single binary
    filter B0 with alpha_0 returns alpha_0 * (conv(input, B0) + bias): the
    bias is added inside the branch, before the weighting. *)
Theorem ApproxConvLayer_single_filter (W : tensor 4) (b : option (tensor 1))
  (strides : nat * nat) (pad : padding) (B0 : tensor 4) (a0 : R)
  (binary_filters : node (tensor 5)) (biases : node (tensor 1))
  (x : node (tensor 4)) (s : store) :
  binary_filters s = [B0] -> v_alphas s = column [a0] ->
  ApproxConv conv2d 1 W b strides pad = Raise ZeroDivisionError /\
  ApproxConvLayer conv2d 1 binary_filters v_alphas (Tensor1 biases) strides pad x s
  = tmap (Rmult a0) 4
      (bcast Rplus 4
         (conv2d (x s) B0 [1%nat; fst strides; snd strides; 1%nat] pad)
         (lead1 3 (r := 1) (biases s))).
Proof.
  intros HB Hal. split; [reflexivity |].
  rewrite (ApproxConvLayer_value 1 binary_filters v_alphas (Tensor1 biases)
             strides pad x s [a0] Hal eq_refl).
  cbn [seq map]. rewrite tf_reduce_sum0_single, tmap_tmap, HB.
  cbn [nth add_biases]. apply tmap_ext. intros c. lra.
Qed.

End LayerProperties.

Lemma tf_sign_1 : tf_sign 1 = 1.
Proof. apply tf_sign_pos. lra. Qed.

Lemma ApproxConvLayer_single_filter_witness :
  ApproxConv tf_conv2d 1 [[[[1]]]] (Some [1]) (1%nat, 1%nat) VALID
  = Raise ZeroDivisionError /\
  ApproxConvLayer tf_conv2d 1 (constant ([[[[[1]]]]] : tensor 5)) v_alphas
    (Tensor1 v_biases) (1%nat, 1%nat) VALID (constant ([[[[3]]]] : tensor 4))
    (initial_store [[[[1]]]] (Some [1]) 1 1 (column [2]))
  = tmap (Rmult 2) 4
      (bcast Rplus 4
         (tf_conv2d [[[[3]]]] [[[[1]]]] [1%nat; 1%nat; 1%nat; 1%nat] VALID)
         (lead1 3 (r := 1) [1])).
Proof.
  apply (ApproxConvLayer_single_filter tf_conv2d [[[[1]]]] (Some [1]) (1%nat, 1%nat)
           VALID [[[[1]]]] 2 (constant ([[[[[1]]]]] : tensor 5)) v_biases
           (constant ([[[[3]]]] : tensor 4))
           (initial_store [[[[1]]]] (Some [1]) 1 1 (column [2])));
    reflexivity.
Defined.

Lemma tf_conv2d_1x1 (x w : R) :
  tf_conv2d [[[[x]]]] [[[[w]]]] [1%nat; 1%nat; 1%nat; 1%nat] VALID = [[[[x * w + 0 + 0 + 0]]]].
Proof. reflexivity. Qed.

(** C6 fails on the code.  With M = 1 the constructor raises; and the
    forward closure, run on the 1x1 filter bank [1] (binary filter
    sign(FilterBank) = [1]), alpha_0 = 2, bias 1 and input 3, returns
    2 * (3 + 1) = 8, while alpha_0 * conv + bias is 2 * 3 + 1 = 7. *)
Lemma ApproxConvLayer_single_filter_counterexample :
  ApproxConv tf_conv2d 1 [[[[1]]]] (Some [1]) (1%nat, 1%nat) VALID
  = Raise ZeroDivisionError /\
  ApproxConvLayer tf_conv2d 1 (fun s => [tmap tf_sign 4 (v_filters s)]) v_alphas
    (Tensor1 v_biases) (1%nat, 1%nat) VALID (constant ([[[[3]]]] : tensor 4))
    (initial_store [[[[1]]]] (Some [1]) 1 1 (column [2]))
  = [[[[8]]]] /\
  bcast Rplus 4
    (tmap (Rmult 2) 4
       (tf_conv2d [[[[3]]]] (tmap tf_sign 4 [[[[1]]]])
          [1%nat; 1%nat; 1%nat; 1%nat] VALID))
    (lead1 3 (r := 1) [1])
  = [[[[7]]]] /\
  ([[[[8]]]] : tensor 4) <> [[[[7]]]].
Proof.
  split; [reflexivity |]. split; [| split].
  - rewrite (ApproxConvLayer_value tf_conv2d 1
               (fun s => [tmap tf_sign 4 (v_filters s)]) v_alphas (Tensor1 v_biases)
               (1%nat, 1%nat) VALID (constant ([[[[3]]]] : tensor 4))
               (initial_store [[[[1]]]] (Some [1]) 1 1 (column [2]))
               [2] eq_refl eq_refl).
    cbn [seq map]. rewrite tf_reduce_sum0_single, tmap_tmap.
    unfold constant, initial_store. cbn [nth v_filters v_biases add_biases fst snd tmap map].
    rewrite tf_sign_1, tf_conv2d_1x1. cbn. repeat f_equal. lra.
  - cbn [tmap map]. rewrite tf_sign_1, tf_conv2d_1x1. cbn. repeat f_equal. lra.
  - intros H. injection H as H. lra.
Qed.

(** ** Broadcasting and reduction, element by element *)

Lemma nth_error_zip_with {A B C : Type} (f : A -> B -> C) (l1 : list A) (l2 : list B)
  (i : nat) (a : A) (b : B) :
  nth_error l1 i = Some a -> nth_error l2 i = Some b ->
  nth_error (zip_with f l1 l2) i = Some (f a b).
Proof.
  revert l2 i. induction l1 as [| a' l1 IH]; intros [| b' l2] [| i]; simpl;
    intros H1 H2; try discriminate.
  - now injection H1 as ->; injection H2 as ->.
  - now apply IH.
Qed.

Lemma Forall_zip_with {A B C : Type} (P : A -> Prop) (Q : B -> Prop) (T : C -> Prop)
  (f : A -> B -> C) (l1 : list A) (l2 : list B) :
  (forall a b, P a -> Q b -> T (f a b)) ->
  Forall P l1 -> Forall Q l2 -> Forall T (zip_with f l1 l2).
Proof.
  intros H H1. revert l2. induction H1 as [| a l1 Pa _ IH]; intros l2 H2.
  - constructor.
  - destruct H2 as [| b l2 Qb H2]; simpl; constructor; auto.
Qed.

Lemma elem_S_Some (r : nat) (l : tensor (S r)) (i : nat) (idx : list nat) (a : tensor r) :
  nth_error l i = Some a -> elem (S r) l (i :: idx) = elem r a idx.
Proof. intros E. cbn [elem]. now rewrite E. Qed.

Lemma shaped_nth_error (r : nat) (d : nat) (ds : list nat) (l : tensor (S r)) (i : nat) :
  shaped (S r) (d :: ds) l -> (i < d)%nat ->
  exists a : tensor r, nth_error l i = Some a /\ shaped r ds a.
Proof.
  intros [L F] Hi.
  destruct (nth_error l i) as [a |] eqn:E.
  - exists a. split; [reflexivity |].
    rewrite Forall_forall in F. apply F. eapply nth_error_In; eauto.
  - apply nth_error_None in E. lia.
Qed.

Lemma bcast_shaped (f : R -> R -> R) (r : nat) (dims : list nat) (t1 t2 : tensor r) :
  shaped r dims t1 -> shaped r dims t2 ->
  shaped r dims (bcast f r t1 t2) /\
  forall idx, in_bounds idx dims ->
    elem r (bcast f r t1 t2) idx = f (elem r t1 idx) (elem r t2 idx).
Proof.
  revert dims t1 t2. induction r as [| r IH]; intros dims t1 t2 H1 H2.
  - split; [exact H1 | reflexivity].
  - destruct dims as [| d ds]; [destruct H1 |].
    pose proof H1 as [L1 F1]. pose proof H2 as [L2 F2].
    assert (E : bcast f (S r) t1 t2 = zip_with (bcast f r) t1 t2).
    { apply bcast_same_length. exact (eq_trans L1 (eq_sym L2)). }
    rewrite E. split.
    + split.
      * rewrite zip_with_length; [exact L1 | exact (eq_trans L1 (eq_sym L2))].
      * apply (Forall_zip_with (shaped r ds) (shaped r ds)); try assumption.
        intros a b Ha Hb. now apply IH.
    + intros idx Hidx. inversion Hidx as [| i d' idx' ds' Hi Hrest]; subst.
      destruct (shaped_nth_error r _ ds t1 i H1 Hi) as [a [E1 Sa]].
      destruct (shaped_nth_error r _ ds t2 i H2 Hi) as [b [E2 Sb]].
      rewrite (elem_S_Some r t1 i idx' a E1), (elem_S_Some r t2 i idx' b E2).
      rewrite (elem_S_Some r _ i idx' _ (nth_error_zip_with _ _ _ _ _ _ E1 E2)).
      now apply IH with (dims := ds).
Qed.

Lemma tmap_shaped (f : R -> R) (r : nat) (dims : list nat) (t : tensor r) :
  shaped r dims t ->
  shaped r dims (tmap f r t) /\
  forall idx, in_bounds idx dims -> elem r (tmap f r t) idx = f (elem r t idx).
Proof.
  revert dims t. induction r as [| r IH]; intros dims t H.
  - split; [exact H | reflexivity].
  - destruct dims as [| d ds]; [destruct H |]. pose proof H as [L F]. split.
    + split; [cbn [tmap]; rewrite length_map; exact L |].
      cbn [tmap]. apply Forall_map. revert F. apply Forall_impl.
      intros a Ha. now apply IH.
    + intros idx Hidx. inversion Hidx as [| i d' idx' ds' Hi Hrest]; subst.
      destruct (shaped_nth_error r _ ds t i H Hi) as [a [E Sa]].
      rewrite (elem_S_Some r t i idx' a E).
      rewrite (elem_S_Some r (tmap f (S r) t) i idx' (tmap f r a)
                 (map_nth_error (tmap f r) i t E)).
      now apply IH with (dims := ds).
Qed.

(** [tf.reduce_sum(axis=0)] of at least one slice, all of one shape, adds
    the slices element by element. *)
Lemma tf_reduce_sum0_shaped (r : nat) (dims : list nat) (l : list (tensor r)) :
  l <> [] -> Forall (shaped r dims) l ->
  shaped r dims (tf_reduce_sum0 (r := r) l) /\
  forall idx, in_bounds idx dims ->
    elem r (tf_reduce_sum0 (r := r) l) idx
    = fold_right Rplus 0 (map (fun t => elem r t idx) l).
Proof.
  induction l as [| t l IH]; intros Hne F; [congruence |].
  inversion F as [| t' l' Ht Fl]; subst.
  destruct l as [| t2 l].
  - rewrite tf_reduce_sum0_single.
    destruct (tmap_shaped (fun a => a + 0) r dims t Ht) as [S1 E1].
    split; [exact S1 |]. intros idx Hidx. rewrite E1 by assumption. reflexivity.
  - destruct IH as [S2 E2]; [discriminate | assumption |].
    change (tf_reduce_sum0 (r := r) (t :: t2 :: l))
      with (bcast Rplus r t (tf_reduce_sum0 (r := r) (t2 :: l))).
    destruct (bcast_shaped Rplus r dims t _ Ht S2) as [S3 E3].
    split; [exact S3 |]. intros idx Hidx.
    rewrite E3, E2 by assumption. reflexivity.
Qed.

Lemma elem_nth4 (t : tensor 4) (b i j k : nat) :
  elem 4 t [b; i; j; k] = nth k (nth j (nth i (nth b t []) []) []) 0.
Proof.
  cbn [elem]. revert b i j k.
  assert (N : forall (A : Type) (l : list A) (n : nat) (d : A),
             nth n l d = match nth_error l n with Some a => a | None => d end).
  { intros A l. induction l as [| a l IH]; intros [| n] d; simpl; auto. }
  assert (Z : forall (A : Type) (n : nat), nth n (@nil A) = fun d => d).
  { intros A [| n]; reflexivity. }
  intros b i j k. rewrite (N _ t b).
  destruct (nth_error t b) as [t3 |]; [| now rewrite !Z].
  rewrite (N _ t3 i).
  destruct (nth_error t3 i) as [t2 |]; [| now rewrite !Z].
  rewrite (N _ t2 j).
  destruct (nth_error t2 j) as [t1 |]; [| now rewrite !Z].
  rewrite (N _ t1 k). reflexivity.
Qed.

(** Branches scaled by their coefficients and added up, as both layers do. *)
Lemma weighted_branches_sum (K : nat) (branch : nat -> tensor 4) (coeff : nat -> R)
  (dims : list nat) :
  (1 <= K)%nat ->
  (forall k, (k < K)%nat -> shaped 4 dims (branch k)) ->
  let output :=
    tf_reduce_sum0 (r := 4)
      (map (fun k => tmap (fun c => c * coeff k) 4 (branch k)) (seq 0 K)) in
  shaped 4 dims output /\
  forall idx, in_bounds idx dims ->
    elem 4 output idx = sum_over K (fun k => coeff k * elem 4 (branch k) idx).
Proof.
  intros HK Hs output.
  assert (F : Forall (shaped 4 dims)
                (map (fun k => tmap (fun c => c * coeff k) 4 (branch k)) (seq 0 K))).
  { apply Forall_map, Forall_forall. intros k Hk. apply in_seq in Hk.
    apply tmap_shaped, Hs. lia. }
  assert (Hne : map (fun k => tmap (fun c => c * coeff k) 4 (branch k)) (seq 0 K) <> []).
  { destruct K; [lia | discriminate]. }
  destruct (tf_reduce_sum0_shaped 4 dims _ Hne F) as [S1 E1].
  split; [exact S1 |]. intros idx Hidx. unfold output. rewrite E1 by assumption.
  rewrite map_map. unfold sum_over. f_equal. apply map_ext_in.
  intros k Hk. apply in_seq in Hk.
  destruct (tmap_shaped (fun c => c * coeff k) 4 dims (branch k)) as [_ E2];
    [apply Hs; lia |].
  rewrite E2 by assumption. apply Rmult_comm.
Qed.

Lemma in_bounds4 (b i j k n h w c : nat) :
  (b < n)%nat -> (i < h)%nat -> (j < w)%nat -> (k < c)%nat ->
  in_bounds [b; i; j; k] [n; h; w; c].
Proof. intros. repeat constructor; assumption. Qed.

(** The closure [ApproxConvLayer] without biases, on M >= 1 branches of one
    shape, element by element. *)
Lemma ApproxConvLayer_sum
  (conv2d : tensor 4 -> tensor 4 -> list nat -> padding -> tensor 4)
  (M : nat) (binary_filters : node (tensor 5)) (alphas : node (tensor 2))
  (strides : nat * nat) (pad : padding) (x : node (tensor 4)) (s : store)
  (al : list R) (n h w c : nat) :
  (1 <= M)%nat ->
  alphas s = column al -> length al = M ->
  (forall m, (m < M)%nat ->
     shaped 4 [n; h; w; c]
       (conv2d (x s) (nth m (binary_filters s) [])
          [1%nat; fst strides; snd strides; 1%nat] pad)) ->
  shaped 4 [n; h; w; c]
    (ApproxConvLayer conv2d M binary_filters alphas (PyFloat 0) strides pad x s) /\
  forall b i j k, (b < n)%nat -> (i < h)%nat -> (j < w)%nat -> (k < c)%nat ->
    nth k (nth j (nth i (nth b
      (ApproxConvLayer conv2d M binary_filters alphas (PyFloat 0) strides pad x s)
      []) []) []) 0
    = sum_over M (fun m =>
        nth m al 0
        * nth k (nth j (nth i (nth b
            (conv2d (x s) (nth m (binary_filters s) [])
               [1%nat; fst strides; snd strides; 1%nat] pad) []) []) []) 0).
Proof.
  intros HM Hal Hlen Hshape.
  rewrite (ApproxConvLayer_value conv2d M binary_filters alphas (PyFloat 0)
             strides pad x s al Hal Hlen).
  unfold add_biases.
  set (conv := fun m => conv2d (x s) (nth m (binary_filters s) [])
                          [1%nat; fst strides; snd strides; 1%nat] pad).
  assert (E : map (fun i => tmap (fun c0 => c0 * nth i al 0) 4
                              (tmap (fun x0 => x0 + 0) 4 (conv i))) (seq 0 M)
              = map (fun i => tmap (fun c0 => c0 * nth i al 0) 4 (conv i)) (seq 0 M)).
  { apply map_ext. intros i. rewrite tmap_tmap. apply tmap_ext. intros v.
    now rewrite Rplus_0_r. }
  unfold conv in E. rewrite E.
  destruct (weighted_branches_sum M conv (fun m => nth m al 0) [n; h; w; c])
    as [S1 E1]; [lia | exact Hshape |].
  split; [exact S1 |]. intros b i j k Hb Hi Hj Hk.
  rewrite <- elem_nth4, E1 by now apply in_bounds4.
  apply sum_over_ext. intros m Hm. now rewrite elem_nth4.
Qed.

(** C10: without biases the construction succeeds (M >= 2) and the forward
    output is, element by element, the sum over the M branches of alpha_m
    times the convolution of the input with binary filter m; nothing else
    is added in a branch.  The hypotheses are the shapes the tensor runtime
    enforces: alphas of shape (M, 1) and M convolution outputs of one shape
    (n, h, w, c). *)
Theorem ApproxConv_without_biases_sum
  (conv2d : tensor 4 -> tensor 4 -> list nat -> padding -> tensor 4)
  (M : nat) (W : tensor 4) (strides : nat * nat) (pad : padding)
  (binary_filters : node (tensor 5)) (x : node (tensor 4)) (s : store)
  (al : list R) (n h w c : nat) :
  (2 <= M)%nat ->
  get_binary_filters v_filters M = Ok binary_filters ->
  v_alphas s = column al -> length al = M ->
  (forall m, (m < M)%nat ->
     shaped 4 [n; h; w; c]
       (conv2d (x s) (nth m (binary_filters s) [])
          [1%nat; fst strides; snd strides; 1%nat] pad)) ->
  exists (train : store -> store) (layer : node (tensor 4) -> node (tensor 4))
         (loss : node R),
    ApproxConv conv2d M W None strides pad = Ok (train, layer, loss) /\
    shaped 4 [n; h; w; c] (layer x s) /\
    forall b i j k, (b < n)%nat -> (i < h)%nat -> (j < w)%nat -> (k < c)%nat ->
      nth k (nth j (nth i (nth b (layer x s) []) []) []) 0
      = sum_over M (fun m =>
          nth m al 0
          * nth k (nth j (nth i (nth b
              (conv2d (x s) (nth m (binary_filters s) [])
                 [1%nat; fst strides; snd strides; 1%nat] pad) []) []) []) 0).
Proof.
  intros HM HB Hal Hlen Hshape.
  unfold ApproxConv. rewrite HB. cbn [bind]. unfold get_alphas.
  do 3 eexists. split; [reflexivity |].
  apply ApproxConvLayer_sum; [lia | assumption | assumption | assumption].
Qed.

Lemma ApproxConv_without_biases_sum_witness :
  (2 <= 2)%nat /\
  get_binary_filters v_filters 2
  = Ok (match get_binary_filters v_filters 2 with
        | Ok B => B
        | Raise _ => constant []
        end) /\
  v_alphas (initial_store [[[[1; 3]]]] None 2 1 (column [2; 5])) = column [2; 5] /\
  length [2; 5] = 2%nat /\
  (forall m, (m < 2)%nat ->
     shaped 4 [1; 1; 1; 2]%nat
       (tf_conv2d
          (constant ([[[[3]]]] : tensor 4)
             (initial_store [[[[1; 3]]]] None 2 1 (column [2; 5])))
          (nth m (match get_binary_filters v_filters 2 with
                  | Ok B => B
                  | Raise _ => constant []
                  end (initial_store [[[[1; 3]]]] None 2 1 (column [2; 5]))) [])
          [1%nat; fst (1%nat, 1%nat); snd (1%nat, 1%nat); 1%nat] VALID)) /\
  exists (train : store -> store) (layer : node (tensor 4) -> node (tensor 4))
         (loss : node R),
    ApproxConv tf_conv2d 2 [[[[1; 3]]]] None (1%nat, 1%nat) VALID
    = Ok (train, layer, loss) /\
    shaped 4 [1; 1; 1; 2]%nat
      (layer (constant ([[[[3]]]] : tensor 4))
         (initial_store [[[[1; 3]]]] None 2 1 (column [2; 5]))) /\
    forall b i j k, (b < 1)%nat -> (i < 1)%nat -> (j < 1)%nat -> (k < 2)%nat ->
      nth k (nth j (nth i (nth b
        (layer (constant ([[[[3]]]] : tensor 4))
           (initial_store [[[[1; 3]]]] None 2 1 (column [2; 5]))) []) []) []) 0
      = sum_over 2 (fun m =>
          nth m [2; 5] 0
          * nth k (nth j (nth i (nth b
              (tf_conv2d
                 (constant ([[[[3]]]] : tensor 4)
                    (initial_store [[[[1; 3]]]] None 2 1 (column [2; 5])))
                 (nth m (match get_binary_filters v_filters 2 with
                         | Ok B => B
                         | Raise _ => constant []
                         end (initial_store [[[[1; 3]]]] None 2 1 (column [2; 5]))) [])
                 [1%nat; fst (1%nat, 1%nat); snd (1%nat, 1%nat); 1%nat] VALID)
              []) []) []) 0).
Proof.
  assert (Hshape : forall m, (m < 2)%nat ->
     shaped 4 [1; 1; 1; 2]%nat
       (tf_conv2d
          (constant ([[[[3]]]] : tensor 4)
             (initial_store [[[[1; 3]]]] None 2 1 (column [2; 5])))
          (nth m (match get_binary_filters v_filters 2 with
                  | Ok B => B
                  | Raise _ => constant []
                  end (initial_store [[[[1; 3]]]] None 2 1 (column [2; 5]))) [])
          [1%nat; fst (1%nat, 1%nat); snd (1%nat, 1%nat); 1%nat] VALID)).
  { intros [| [| m]] Hm; [| | lia]; cbn; repeat constructor. }
  split; [lia |]. split; [reflexivity |]. split; [reflexivity |].
  split; [reflexivity |]. split; [exact Hshape |].
  apply (ApproxConv_without_biases_sum tf_conv2d 2 [[[[1; 3]]]] (1%nat, 1%nat) VALID
           (match get_binary_filters v_filters 2 with
            | Ok B => B
            | Raise _ => constant []
            end)
           (constant ([[[[3]]]] : tensor 4))
           (initial_store [[[[1; 3]]]] None 2 1 (column [2; 5]))
           [2; 5] 1 1 1 2); [lia | reflexivity | reflexivity | reflexivity |].
  exact Hshape.
Defined.

(** ** Activation binarization *)

Lemma binarized_activation_value (shift_parameters : node (tensor 2))
  (input_tensor : node (tensor 4)) (index : nat) (s : store) (shift : R) :
  nth index (shift_parameters s) [] = [shift] ->
  binarized_activation shift_parameters input_tensor index s
  = tmap (fun v => tf_sign (tf_clip_by_value (v + shift) 0 1 - 5 / 10)) 4 (input_tensor s).
Proof.
  intros H. unfold binarized_activation. rewrite H.
  change (lead1 3 (r := 1) [shift]) with (wrap 4 shift).
  now rewrite bcast_wrap_r, !tmap_tmap.
Qed.

(** Away from the threshold the binarization is as specified. *)
Lemma binarize_above (v : R) :
  5 / 10 < v -> tf_sign (tf_clip_by_value (v + 0) 0 1 - 5 / 10) = 1.
Proof.
  intros H. apply tf_sign_pos.
  destruct (Rle_dec 1 (v + 0)) as [H1 | H1].
  - rewrite tf_clip_above by assumption. lra.
  - rewrite tf_clip_inside by lra. lra.
Qed.

Lemma binarize_below (v : R) :
  v < 5 / 10 -> tf_sign (tf_clip_by_value (v + 0) 0 1 - 5 / 10) = -1.
Proof.
  intros H. apply tf_sign_neg.
  destruct (Rle_dec (v + 0) 0) as [H0 | H0].
  - rewrite tf_clip_below by assumption. lra.
  - rewrite tf_clip_inside by lra. lra.
Qed.

Lemma binarize_at_threshold :
  tf_sign (tf_clip_by_value (5 / 10 + 0) 0 1 - 5 / 10) = 0.
Proof.
  rewrite tf_clip_inside by lra.
  replace (5 / 10 + 0 - 5 / 10) with 0 by lra. apply tf_sign_0.
Qed.

Lemma initial_shift_parameter (W : tensor 4) (b : option (tensor 1)) (M K : nat)
  (alphas0 : tensor 2) (k : nat) :
  (k < K)%nat ->
  nth k (v_shift_parameters (initial_store W b M K alphas0)) [] = [0].
Proof.
  intros H. unfold initial_store. cbn [v_shift_parameters].
  apply nth_repeat_lt. exact H.
Qed.

(** The two examples of the specification: -0.3 clips to 0 and binarizes
    to -1, 1.3 clips to 1 and binarizes to +1. *)
Lemma binarized_activation_examples (W : tensor 4) (b : option (tensor 1)) (M : nat)
  (alphas0 : tensor 2) :
  binarized_activation v_shift_parameters
    (constant ([[[[-3 / 10; 13 / 10]]]] : tensor 4)) 0
    (initial_store W b M 1 alphas0)
  = [[[[-1; 1]]]].
Proof.
  rewrite (binarized_activation_value _ _ 0 _ 0)
    by (apply initial_shift_parameter; lia).
  unfold constant. cbn [tmap map].
  rewrite binarize_below by lra. rewrite binarize_above by lra. reflexivity.
Qed.

(** C7, at the threshold: with the shift parameter at its initial value 0,
    the input value 0.5 is binarized to 0, not to +1. *)
Theorem binarized_activation_at_threshold (W : tensor 4) (b : option (tensor 1))
  (M : nat) (alphas0 : tensor 2) :
  binarized_activation v_shift_parameters (constant ([[[[5 / 10]]]] : tensor 4)) 0
    (initial_store W b M 1 alphas0)
  = [[[[0]]]].
Proof.
  rewrite (binarized_activation_value _ _ 0 _ 0)
    by (apply initial_shift_parameter; lia).
  unfold constant. cbn [tmap map]. now rewrite binarize_at_threshold.
Qed.

(** ** Construction and evaluation *)

(** What [minimize] leaves alone: a reading of the store that is changed
    neither by an assignment to a variable of [var_list] or to one of its
    slots, nor by the assignment of the beta powers. *)
Lemma minimize_frame {A : Type} (get : store -> A)
  (var_list : list {x : optimized_variable & node (tensor (var_rank x))}) (s : store) :
  (forall p1 p2 s', get (assign_beta_powers p1 p2 s') = get s') ->
  Forall (fun gv : {x : optimized_variable & node (tensor (var_rank x))} =>
            (forall t s', get (var_assign (projT1 gv) t s') = get s') /\
            (forall t s', get (slot_m_assign (projT1 gv) t s') = get s') /\
            (forall t s', get (slot_v_assign (projT1 gv) t s') = get s'))
         var_list ->
  get (minimize var_list s) = get s.
Proof.
  intros Hp Hv.
  assert (G : forall (lr_t : R) (s0 s1 : store),
            get (fold_left
                   (fun (s' : store)
                        (gv : {x : optimized_variable & node (tensor (var_rank x))}) =>
                      apply_adam lr_t (projT1 gv) (projT2 gv s0) s')
                   var_list s1)
            = get s1).
  { intros lr_t s0. induction Hv as [| gv l [H1 [H2 H3]] _ IH]; intros s1;
      [reflexivity |].
    cbn [fold_left]. rewrite IH. unfold apply_adam. cbv zeta.
    now rewrite H1, H3, H2. }
  unfold minimize. cbv zeta. rewrite Hp. apply G.
Qed.

(** The training operation of [get_alphas] in closed form: one step of
    Adam on [alphas], on its two slots and on the beta powers. *)
Lemma training_op_step (r : nat) (W : node (tensor r)) (B : node (tensor (S r)))
  (M : nat) (s : store) :
  snd (fst (get_alphas W B M)) s
  = let grad := alphas_gradient (W s) (B s) M (v_alphas s) in
    let lr_t := adam_lr * sqrt (1 - v_beta2_power s) / (1 - v_beta1_power s) in
    let m_t := bcast (fun m g => adam_beta1 * m + (1 - adam_beta1) * g) 2
                 (v_adam_m s) grad in
    let v_t := bcast (fun v g => adam_beta2 * v + (1 - adam_beta2) * (g * g)) 2
                 (v_adam_v s) grad in
    let step := bcast (fun m v => lr_t * m / (sqrt v + adam_epsilon)) 2 m_t v_t in
    mkStore (v_filters s) (v_biases s) (bcast Rminus 2 (v_alphas s) step) m_t v_t
            (v_beta1_power s * adam_beta1) (v_beta2_power s * adam_beta2)
            (v_shift_parameters s) (v_betas s).
Proof. reflexivity. Qed.

(** The training operation of [get_alphas] leaves the four variables that
    are not in its [var_list] as they are. *)
Lemma training_op_frame (r : nat) (W : node (tensor r)) (B : node (tensor (S r)))
  (M : nat) (s : store) :
  v_filters (snd (fst (get_alphas W B M)) s) = v_filters s /\
  v_biases (snd (fst (get_alphas W B M)) s) = v_biases s /\
  v_shift_parameters (snd (fst (get_alphas W B M)) s) = v_shift_parameters s /\
  v_betas (snd (fst (get_alphas W B M)) s) = v_betas s.
Proof.
  unfold get_alphas. cbn [fst snd].
  repeat split; apply minimize_frame; try reflexivity;
    repeat constructor.
Qed.

(** C9 fails on the code.  One run of the training operation of a layer
    with M = 2 changes Adam's beta1 power from 0.9 to 0.81: AlphaVector is
    not the only stored value that the operation rewrites. *)
Lemma training_step_rewrites_optimizer_state_counterexample :
  exists (train : store -> store) (abc_layer : node (tensor 4) -> node (tensor 4))
         (loss : node R),
    ABC tf_conv2d [[[[1; 3]]]] None 2 1 (1%nat, 1%nat) VALID
    = Ok (train, abc_layer, loss) /\
    v_beta1_power (initial_store [[[[1; 3]]]] None 2 1 (column [2; 5])) = 9 / 10 /\
    v_beta1_power
      (snd (run_op train (initial_store [[[[1; 3]]]] None 2 1 (column [2; 5]))))
    = 81 / 100 /\
    81 / 100 <> 9 / 10.
Proof.
  do 3 eexists. split; [reflexivity |]. split; [reflexivity |].
  split; [| lra].
  unfold run_op, get_alphas, minimize, assign_beta_powers, initial_store, adam_beta1.
  cbn [snd fst v_beta1_power]. lra.
Qed.

(** C9, as the code has it: for M >= 2 both layers are constructed and
    share one training operation.  Running it leaves FilterBank, Bias,
    ShiftParameters and BetaVector as they were: the optimizer is handed
    [alphas] alone.  What it writes is AlphaVector and the optimizer's own
    variables for it: Adam's two moment slots, and the two beta powers,
    each multiplied by its beta.  Running either forward callable, or the
    loss, leaves every variable as it was. *)
Theorem training_step_write_set
  (conv2d : tensor 4 -> tensor 4 -> list nat -> padding -> tensor 4)
  (W : tensor 4) (b : option (tensor 1)) (M K : nat) (strides : nat * nat)
  (pad : padding) :
  (2 <= M)%nat ->
  exists (binary_filters : node (tensor 5)) (train : store -> store)
         (approx_layer abc_layer : node (tensor 4) -> node (tensor 4))
         (loss : node R),
    get_binary_filters v_filters M = Ok binary_filters /\
    ApproxConv conv2d M W b strides pad = Ok (train, approx_layer, loss) /\
    ABC conv2d W b M K strides pad = Ok (train, abc_layer, loss) /\
    forall s : store,
      (v_filters (snd (run_op train s)) = v_filters s /\
       v_biases (snd (run_op train s)) = v_biases s /\
       v_shift_parameters (snd (run_op train s)) = v_shift_parameters s /\
       v_betas (snd (run_op train s)) = v_betas s) /\
      (let grad := alphas_gradient (v_filters s) (binary_filters s) M (v_alphas s) in
       let lr_t := adam_lr * sqrt (1 - v_beta2_power s) / (1 - v_beta1_power s) in
       let m_t := bcast (fun m g => adam_beta1 * m + (1 - adam_beta1) * g) 2
                    (v_adam_m s) grad in
       let v_t := bcast (fun v g => adam_beta2 * v + (1 - adam_beta2) * (g * g)) 2
                    (v_adam_v s) grad in
       v_alphas (snd (run_op train s))
       = bcast Rminus 2 (v_alphas s)
           (bcast (fun m v => lr_t * m / (sqrt v + adam_epsilon)) 2 m_t v_t) /\
       v_adam_m (snd (run_op train s)) = m_t /\
       v_adam_v (snd (run_op train s)) = v_t /\
       v_beta1_power (snd (run_op train s)) = v_beta1_power s * adam_beta1 /\
       v_beta2_power (snd (run_op train s)) = v_beta2_power s * adam_beta2) /\
      (forall x : node (tensor 4),
         snd (fetch (approx_layer x) s) = s /\ snd (fetch (abc_layer x) s) = s) /\
      snd (fetch loss s) = s.
Proof.
  intros HM.
  destruct (get_binary_filters_value 4 v_filters M) as [Bn [HB _]]; [lia |].
  unfold ABC, ApproxConv. rewrite HB. cbn [bind].
  exists Bn, (snd (fst (get_alphas v_filters Bn M))).
  do 3 eexists. split; [reflexivity |]. split; [reflexivity |].
  split; [reflexivity |].
  intros s. split; [| split; [| split]].
  - unfold run_op. cbn [snd]. apply training_op_frame.
  - unfold run_op. cbn [snd]. rewrite training_op_step. cbv zeta.
    cbn [v_alphas v_adam_m v_adam_v v_beta1_power v_beta2_power].
    repeat split.
  - intros x. split; reflexivity.
  - reflexivity.
Qed.

Lemma training_step_write_set_witness :
  (2 <= 5)%nat /\
  exists (binary_filters : node (tensor 5)) (train : store -> store)
         (approx_layer abc_layer : node (tensor 4) -> node (tensor 4))
         (loss : node R),
    get_binary_filters v_filters 5 = Ok binary_filters /\
    ApproxConv tf_conv2d 5 (zero_bank 5 5 1 32) None (1%nat, 1%nat) SAME
    = Ok (train, approx_layer, loss) /\
    ABC tf_conv2d (zero_bank 5 5 1 32) None 5 5 (1%nat, 1%nat) SAME
    = Ok (train, abc_layer, loss) /\
    forall s : store,
      (v_filters (snd (run_op train s)) = v_filters s /\
       v_biases (snd (run_op train s)) = v_biases s /\
       v_shift_parameters (snd (run_op train s)) = v_shift_parameters s /\
       v_betas (snd (run_op train s)) = v_betas s) /\
      (let grad := alphas_gradient (v_filters s) (binary_filters s) 5 (v_alphas s) in
       let lr_t := adam_lr * sqrt (1 - v_beta2_power s) / (1 - v_beta1_power s) in
       let m_t := bcast (fun m g => adam_beta1 * m + (1 - adam_beta1) * g) 2
                    (v_adam_m s) grad in
       let v_t := bcast (fun v g => adam_beta2 * v + (1 - adam_beta2) * (g * g)) 2
                    (v_adam_v s) grad in
       v_alphas (snd (run_op train s))
       = bcast Rminus 2 (v_alphas s)
           (bcast (fun m v => lr_t * m / (sqrt v + adam_epsilon)) 2 m_t v_t) /\
       v_adam_m (snd (run_op train s)) = m_t /\
       v_adam_v (snd (run_op train s)) = v_t /\
       v_beta1_power (snd (run_op train s)) = v_beta1_power s * adam_beta1 /\
       v_beta2_power (snd (run_op train s)) = v_beta2_power s * adam_beta2) /\
      (forall x : node (tensor 4),
         snd (fetch (approx_layer x) s) = s /\ snd (fetch (abc_layer x) s) = s) /\
      snd (fetch loss s) = s.
Proof.
  split; [lia |].
  apply (training_step_write_set tf_conv2d (zero_bank 5 5 1 32) None 5 5
           (1%nat, 1%nat) SAME).
  lia.
Defined.

(** C5 fails on the code: the Binary Filter Generator accepts M = 0 (it
    builds a graph with no member), and the ABC Layer is constructed with
    K = 0. *)
Lemma no_configuration_check_counterexample :
  (exists B : node (tensor 5),
     get_binary_filters (constant (zero_bank 1 1 1 1)) 0 = Ok B /\
     forall s, B s = []) /\
  (exists ops, ABC tf_conv2d (zero_bank 1 1 1 1) None 5 0 (1%nat, 1%nat) VALID = Ok ops).
Proof.
  split.
  - destruct (get_binary_filters_value 4 (constant (zero_bank 1 1 1 1)) 0)
      as [B [HB Hval]]; [lia |].
    exists B. split; [exact HB |]. intros s. now rewrite Hval.
  - destruct (get_binary_filters_value 4 v_filters 5) as [Bn [HB _]]; [lia |].
    unfold ABC, ApproxConv. rewrite HB. cbn [bind]. unfold get_alphas. cbn [bind].
    eexists. reflexivity.
Qed.

(** C5 as the code has it: there is no configuration check.  With M = 1
    every constructor stops, before any graph is evaluated, on the
    ZeroDivisionError of 2/(M - 1); M = 0 is accepted by the Binary Filter
    Generator, and for M >= 2 the ABC Layer is constructed with K = 0. *)
Theorem construction_without_configuration_check
  (conv2d : tensor 4 -> tensor 4 -> list nat -> padding -> tensor 4)
  (r : nat) (filter_bank : node (tensor r)) (stddev : node R)
  (W : tensor 4) (b : option (tensor 1)) (M K : nat) (strides : nat * nat)
  (pad : padding) :
  (2 <= M)%nat ->
  spreaded_deviation 1 = Raise ZeroDivisionError /\
  get_shifted_stddev stddev 1 = Raise ZeroDivisionError /\
  get_binary_filters filter_bank 1 = Raise ZeroDivisionError /\
  ApproxConv conv2d 1 W b strides pad = Raise ZeroDivisionError /\
  ABC conv2d W b 1 K strides pad = Raise ZeroDivisionError /\
  (exists B : node (tensor (S r)),
     get_binary_filters filter_bank 0 = Ok B /\ forall s, B s = []) /\
  (exists ops, ABC conv2d W b M 0 strides pad = Ok ops).
Proof.
  intros HM. do 5 (split; [reflexivity |]). split.
  - destruct (get_binary_filters_value r filter_bank 0) as [B [HB Hval]]; [lia |].
    exists B. split; [exact HB |]. intros s. now rewrite Hval.
  - destruct (get_binary_filters_value 4 v_filters M) as [Bn [HB _]]; [lia |].
    unfold ABC, ApproxConv. rewrite HB. cbn [bind]. unfold get_alphas. cbn [bind].
    eexists. reflexivity.
Qed.

Lemma construction_without_configuration_check_witness :
  (2 <= 5)%nat /\
  spreaded_deviation 1 = Raise ZeroDivisionError /\
  get_shifted_stddev (constant 0) 1 = Raise ZeroDivisionError /\
  get_binary_filters (constant (zero_bank 5 5 1 32)) 1 = Raise ZeroDivisionError /\
  ApproxConv tf_conv2d 1 (zero_bank 5 5 1 32) None (1%nat, 1%nat) SAME
  = Raise ZeroDivisionError /\
  ABC tf_conv2d (zero_bank 5 5 1 32) None 1 5 (1%nat, 1%nat) SAME
  = Raise ZeroDivisionError /\
  (exists B : node (tensor 5),
     get_binary_filters (constant (zero_bank 5 5 1 32)) 0 = Ok B /\
     forall s, B s = []) /\
  (exists ops, ABC tf_conv2d (zero_bank 5 5 1 32) None 5 0 (1%nat, 1%nat) SAME = Ok ops).
Proof.
  split; [lia |].
  apply (construction_without_configuration_check tf_conv2d 4
           (constant (zero_bank 5 5 1 32)) (constant 0) (zero_bank 5 5 1 32) None
           5 5 (1%nat, 1%nat) SAME).
  lia.
Defined.

(** ** Binary Filter Generator in float32 arithmetic *)



(** ** Float32 tensors *)












Lemma float32_spreaded_deviation_ok (M : nat) :
  M <> 1%nat ->
  Float32.spreaded_deviation M = Ok (map (Float32.rounded_shift_offset M) (seq 0 M)).
Proof.
  intros HM. unfold Float32.spreaded_deviation, Float32.py_div.
  replace (Z.eqb (Z.of_nat M - 1) 0) with false by (symmetry; apply Z.eqb_neq; lia).
  cbn [bind]. f_equal. unfold Float32.range_tensor, py_range. cbn [Float32.tmap].
  rewrite !map_map. reflexivity.
Qed.




Lemma float32_eqb_eq (x y : Float32.float32) : Float32.eqb x y = true -> x = y.
Proof.
  destruct x as [s1 | s1 | | s1 m1 e1], y as [s2 | s2 | | s2 m2 e2]; simpl;
    try discriminate; try reflexivity.
  - intros H. apply Bool.eqb_prop in H. now subst.
  - intros H. apply Bool.eqb_prop in H. now subst.
  - intros H. apply andb_prop in H as [H H3]. apply andb_prop in H as [H1 H2].
    apply Bool.eqb_prop in H1. apply Pos.eqb_eq in H2. apply Z.eqb_eq in H3.
    now subst.
Qed.

Lemma forallb_combine_nth {A B : Type} (f : A * B -> bool) (l1 : list A) (l2 : list B)
  (d1 : A) (d2 : B) (i : nat) :
  forallb f (combine l1 l2) = true -> length l1 = length l2 ->
  (i < length l1)%nat -> f (nth i l1 d1, nth i l2 d2) = true.
Proof.
  revert l2 i. induction l1 as [| a l1 IH]; intros [| b l2] i H L Hi;
    simpl in *; try lia; try discriminate.
  apply andb_prop in H as [H1 H2]. destruct i as [| i]; [exact H1 |].
  apply IH; [assumption | lia | lia].
Qed.

Lemma float32_shift_offsets_checked (bound : Q) (M : nat) :
  (1 <= M)%nat ->
  Float32.check_offsets bound M = true ->
  Float32.rounded_shift_offset M 0 = Float32.of_Z (-1) /\
  forall i, (i < M)%nat ->
    Float32.is_finite (Float32.rounded_shift_offset M i) = true /\
    (Qabs (Float32.to_Q (Float32.rounded_shift_offset M i)
           - Float32.exact_shift_offset M i) <= bound)%Q /\
    (Qabs (Float32.to_Q (Float32.rounded_shift_offset M (M - 1 - i))
           + Float32.to_Q (Float32.rounded_shift_offset M i)) <= bound)%Q.
Proof.
  intros HM H. unfold Float32.check_offsets in H. cbv zeta in H.
  fold (Float32.rounded_shift_offset M) in H.
  set (shifts := map (Float32.rounded_shift_offset M) (seq 0 M)) in H.
  assert (L : length shifts = M) by (unfold shifts; now rewrite length_map, length_seq).
  assert (N : forall i, (i < M)%nat ->
            nth i shifts S754_nan = Float32.rounded_shift_offset M i).
  { intros i Hi. unfold shifts.
    rewrite (nth_indep _ S754_nan (Float32.rounded_shift_offset M 0))
      by (now rewrite length_map, length_seq).
    now rewrite map_nth, seq_nth. }
  apply andb_prop in H as [H H3]. apply andb_prop in H as [H1 H2].
  split.
  - apply float32_eqb_eq in H1. rewrite <- H1. destruct M; [lia |]. reflexivity.
  - intros i Hi.
    pose proof (forallb_combine_nth _ (seq 0 M) shifts 0%nat S754_nan i H2) as C.
    rewrite length_seq in C. specialize (C (eq_sym L) Hi).
    cbn [fst snd] in C. rewrite seq_nth, N in C by assumption. cbn [plus] in C.
    unfold Float32.close_to in C. apply andb_prop in C as [C1 C2].
    apply Qle_bool_iff in C2.
    pose proof (forallb_combine_nth _ (rev shifts) shifts S754_nan S754_nan i H3) as D.
    rewrite length_rev in D. specialize (D eq_refl). rewrite L in D. specialize (D Hi).
    cbn [fst snd] in D. rewrite rev_nth, L, N, N in D by lia.
    apply Qle_bool_iff in D.
    replace (M - S i)%nat with (M - 1 - i)%nat in D by lia.
    repeat split; assumption.
Qed.

Lemma float32_offsets_checked_upto :
  forallb (Float32.check_offsets (1 # 2 ^ 22)) (seq 2 255) = true.
Proof. vm_compute. reflexivity. Qed.

(** C2, as the code computes it: for every M from 2 to 256 the generator
    computes M offsets (the local [spreaded_deviation], which
    [get_shifted_stddev] multiplies by the standard deviation).  Offset 0
    is exactly -1; offset i is finite and within 2^-22 of
    -1 + i * (2 / (M - 1)); the last offset is within 2^-22 of +1; offsets
    i and M - 1 - i add up to at most 2^-22 in absolute value. *)
Theorem shift_offsets_rounded (variables : Type)
  (stddev : Float32.node variables Float32.float32) (M : nat) :
  (2 <= M <= 256)%nat ->
  exists shifts : Float32.tensor 1,
    Float32.spreaded_deviation M = Ok shifts /\
    Float32.get_shifted_stddev variables stddev M
    = Ok (fun s => map (fun shift => Float32.mul shift (stddev s)) shifts) /\
    length shifts = M /\
    nth 0 shifts S754_nan = Float32.of_Z (-1) /\
    (Qabs (Float32.to_Q (nth (M - 1) shifts S754_nan) - 1) <= 1 # 2 ^ 22)%Q /\
    forall i, (i < M)%nat ->
      Float32.is_finite (nth i shifts S754_nan) = true /\
      (Qabs (Float32.to_Q (nth i shifts S754_nan)
             - (-1 + inject_Z (Z.of_nat i) * (2 / (inject_Z (Z.of_nat M) - 1))))
       <= 1 # 2 ^ 22)%Q /\
      (Qabs (Float32.to_Q (nth (M - 1 - i) shifts S754_nan)
             + Float32.to_Q (nth i shifts S754_nan))
       <= 1 # 2 ^ 22)%Q.
Proof.
  intros HM.
  exists (map (Float32.rounded_shift_offset M) (seq 0 M)).
  assert (HS : Float32.spreaded_deviation M
               = Ok (map (Float32.rounded_shift_offset M) (seq 0 M)))
    by (apply float32_spreaded_deviation_ok; lia).
  assert (N : forall i, (i < M)%nat ->
            nth i (map (Float32.rounded_shift_offset M) (seq 0 M)) S754_nan
            = Float32.rounded_shift_offset M i).
  { intros i Hi.
    rewrite (nth_indep _ S754_nan (Float32.rounded_shift_offset M 0))
      by (now rewrite length_map, length_seq).
    now rewrite map_nth, seq_nth. }
  assert (C : Float32.check_offsets (1 # 2 ^ 22) M = true).
  { pose proof float32_offsets_checked_upto as A.
    rewrite forallb_forall in A. apply A. apply in_seq. lia. }
  destruct (float32_shift_offsets_checked (1 # 2 ^ 22) M ltac:(lia) C) as [C0 Ci].
  split; [exact HS |].
  split; [unfold Float32.get_shifted_stddev; rewrite HS; reflexivity |].
  split; [now rewrite length_map, length_seq |].
  split; [rewrite N by lia; exact C0 |].
  split.
  - rewrite N by lia. destruct (Ci (M - 1)%nat ltac:(lia)) as [_ [B _]].
    assert (E : (Float32.exact_shift_offset M (M - 1) == 1)%Q).
    { unfold Float32.exact_shift_offset.
      replace (Z.of_nat (M - 1)) with (Z.of_nat M + -1)%Z by lia.
      rewrite inject_Z_plus. change (inject_Z (-1)) with (-1)%Q.
      field. intros H.
      assert (H' : (inject_Z (Z.of_nat M) == 1)%Q).
      { rewrite <- (Qplus_0_r 1), <- H. ring. }
      unfold Qeq, inject_Z in H'. simpl in H'. lia. }
    now rewrite <- E.
  - intros i Hi. rewrite !N by lia. exact (Ci i Hi).
Qed.

Lemma shift_offsets_rounded_witness :
  (2 <= 5 <= 256)%nat /\
  exists shifts : Float32.tensor 1,
    Float32.spreaded_deviation 5 = Ok shifts /\
    Float32.get_shifted_stddev unit (fun _ => Float32.of_Z 3) 5
    = Ok (fun s => map (fun shift => Float32.mul shift ((fun _ => Float32.of_Z 3) s)) shifts) /\
    length shifts = 5%nat /\
    nth 0 shifts S754_nan = Float32.of_Z (-1) /\
    (Qabs (Float32.to_Q (nth (5 - 1) shifts S754_nan) - 1) <= 1 # 2 ^ 22)%Q /\
    forall i, (i < 5)%nat ->
      Float32.is_finite (nth i shifts S754_nan) = true /\
      (Qabs (Float32.to_Q (nth i shifts S754_nan)
             - (-1 + inject_Z (Z.of_nat i) * (2 / (inject_Z (Z.of_nat 5) - 1))))
       <= 1 # 2 ^ 22)%Q /\
      (Qabs (Float32.to_Q (nth (5 - 1 - i) shifts S754_nan)
             + Float32.to_Q (nth i shifts S754_nan))
       <= 1 # 2 ^ 22)%Q.
Proof.
  split; [lia |].
  apply (shift_offsets_rounded unit (fun _ => Float32.of_Z 3) 5). lia.
Defined.

(** C2 fails on the code.  With M = 42 the last offset is
    16777214 * 2^-24 = 1 - 2^-23, not +1; with M = 4 offsets 1 and 2 are
    -11184810 * 2^-25 and 11184812 * 2^-25, which are not opposite. *)
Lemma shift_offsets_not_exact_counterexample :
  (exists shifts : Float32.tensor 1,
     Float32.spreaded_deviation 42 = Ok shifts /\
     nth (42 - 1) shifts S754_nan = S754_finite false 16777214 (-24) /\
     (Float32.to_Q (nth (42 - 1) shifts S754_nan) == 1 - (1 # 2 ^ 23))%Q /\
     ~ (Float32.to_Q (nth (42 - 1) shifts S754_nan) == 1)%Q) /\
  (Float32.spreaded_deviation 4
   = Ok [S754_finite true 8388608 (-23); S754_finite true 11184810 (-25);
         S754_finite false 11184812 (-25); S754_finite false 8388608 (-23)] /\
   (Float32.to_Q (S754_finite true 11184810 (-25))
    + Float32.to_Q (S754_finite false 11184812 (-25)) == 1 # 2 ^ 24)%Q /\
   ~ (Float32.to_Q (S754_finite false 11184812 (-25))
      == - Float32.to_Q (S754_finite true 11184810 (-25)))%Q).
Proof.
  split.
  - eexists. split; [vm_compute; reflexivity |].
    split; [vm_compute; reflexivity |].
    split; [vm_compute; reflexivity |].
    vm_compute. discriminate.
  - split; [vm_compute; reflexivity |].
    split; [vm_compute; reflexivity |].
    vm_compute. discriminate.
Qed.







(** * Further properties of the code *)

(** ** Alpha Fitter *)










Lemma alphas_gradient_is_derivative_witness :
  (1 <= 2)%nat /\
  derivable_pt_lim
    (fun t => alphas_loss_value ([1; 2] : tensor 1) ([[1; -1]; [1; 1]] : tensor 2) 2
                (column (set_entry 0 t [3; 4])))
    (nth 0 [3; 4] 0)
    (nth 0 (nth 0 (alphas_gradient ([1; 2] : tensor 1) ([[1; -1]; [1; 1]] : tensor 2) 2
                     (column [3; 4])) []) 0).
Proof.
  split; [lia |].
  apply (alphas_gradient_is_derivative 1 ([1; 2] : tensor 1)
           ([[1; -1]; [1; 1]] : tensor 2) 2 [3; 4] 0);
    [lia | reflexivity | reflexivity | repeat constructor | lia].
Defined.

(** ** Activation binarization *)




(** ** Approximate Convolution Layer and ABC Layer *)

(** The closure [ABCLayer], evaluated: every branch is the inner layer run
    on its binarized input, scaled by its beta; the branches are added up. *)
Lemma ABCLayer_value (K : nat) (shift_parameters betas : node (tensor 2))
  (layer : node (tensor 4) -> node (tensor 4)) (input_tensor : node (tensor 4))
  (s : store) (bl : list R) :
  betas s = column bl -> length bl = K ->
  ABCLayer K shift_parameters betas layer input_tensor s
  = tf_reduce_sum0 (r := 4)
      (map (fun k =>
              tmap (Rmult (nth k bl 0)) 4
                (layer (binarized_activation shift_parameters input_tensor k) s))
           (seq 0 K)).
Proof.
  intros Hb Hlen. unfold ABCLayer. cbv zeta. f_equal.
  rewrite Hb, <- Hlen, tf_reshape_column_lead.
  set (g := fun index : nat =>
              layer (binarized_activation shift_parameters input_tensor index) s).
  assert (L : length (map g (py_range (length bl))) = length (map (wrap 4) bl)).
  { unfold py_range. now rewrite !length_map, length_seq. }
  rewrite (bcast_same_length Rmult 4 _ _ L).
  rewrite zip_with_map_r. unfold py_range.
  rewrite (zip_with_map_seq _ g bl 0 0%nat).
  apply map_ext. intros k. rewrite Nat.sub_0_r, bcast_wrap_r.
  apply tmap_ext. intros c. apply Rmult_comm.
Qed.

Lemma nth_repeat_R (x : R) (n k : nat) : (k < n)%nat -> nth k (repeat x n) 0 = x.
Proof. intros H. now apply nth_repeat_lt. Qed.

Lemma bcast_singleton_r (f : R -> R -> R) (r : nat) (t : tensor (S r)) (u : tensor r) :
  bcast f (S r) t [u] = map (fun a => bcast f r a u) t.
Proof.
  cbn [bcast]. destruct (is_singleton t) as [a |] eqn:E.
  - destruct t as [| a' [| ? ?]]; simpl in E; try discriminate.
    injection E as ->. reflexivity.
  - reflexivity.
Qed.

(** A vector added along the last axis of a tensor of higher rank. *)
Lemma bcast_lead1_shaped (f : R -> R -> R) (k : nat) (dims : list nat) (c : nat)
  (t : tensor (k + 1)) (b : tensor 1) :
  length dims = k -> shaped (k + 1) (dims ++ [c]) t -> length b = c ->
  shaped (k + 1) (dims ++ [c]) (bcast f (k + 1) t (lead1 k b)) /\
  forall idx j, in_bounds idx dims -> (j < c)%nat ->
    elem (k + 1) (bcast f (k + 1) t (lead1 k b)) (idx ++ [j])
    = f (elem (k + 1) t (idx ++ [j])) (nth j b 0).
Proof.
  revert dims t. induction k as [| k IH]; intros dims t Hd Ht Hb.
  - destruct dims; [| discriminate]. cbn [app plus lead1] in *.
    destruct (bcast_shaped f 1 [c] t b Ht) as [S1 E1].
    { split; [exact Hb |]. apply Forall_forall. intros; reflexivity. }
    split; [exact S1 |]. intros idx j Hidx Hj. inversion Hidx; subst.
    cbn [app]. rewrite E1 by (repeat constructor; assumption). f_equal.
    cbn [elem]. destruct (nth_error b j) as [y |] eqn:E.
    + symmetry. now apply nth_error_nth.
    + apply nth_error_None in E. lia.
  - destruct dims as [| d ds]; [discriminate |]. injection Hd as Hd.
    change (tensor (S (k + 1))) in t. cbn [app] in *.
    change (lead1 (S k) b) with ([lead1 k b] : tensor (S (k + 1))).
    change (bcast f (S k + 1)) with (bcast f (S (k + 1))).
    rewrite bcast_singleton_r. pose proof Ht as [L F]. split.
    + split; [rewrite length_map; exact L |].
      apply Forall_map. revert F. apply Forall_impl. intros a Ha.
      now apply IH.
    + intros idx j Hidx Hj. destruct idx as [| i idx']; [inversion Hidx |].
      apply Forall2_cons_iff in Hidx as [Hi Hrest].
      cbn [app].
      destruct (shaped_nth_error (k + 1) _ (ds ++ [c]) t i Ht Hi) as [a [E Sa]].
      change (elem (S k + 1)) with (elem (S (k + 1))).
      rewrite (elem_S_Some (k + 1) t i (idx' ++ [j]) a E).
      rewrite (elem_S_Some (k + 1) _ i (idx' ++ [j]) _
                 (map_nth_error (fun a0 => bcast f (k + 1) a0 (lead1 k b)) i t E)).
      now apply (IH ds a Hd Sa Hb).
Qed.

Lemma add_biases_shaped (t : tensor 4) (bias : tensor 1) (n h w c : nat) :
  shaped 4 [n; h; w; c] t -> length bias = c ->
  shaped 4 [n; h; w; c] (bcast Rplus 4 t (lead1 3 (r := 1) bias)) /\
  forall b i j k, (b < n)%nat -> (i < h)%nat -> (j < w)%nat -> (k < c)%nat ->
    elem 4 (bcast Rplus 4 t (lead1 3 (r := 1) bias)) [b; i; j; k]
    = elem 4 t [b; i; j; k] + nth k bias 0.
Proof.
  intros Ht Hb.
  destruct (bcast_lead1_shaped Rplus 3 [n; h; w] c t bias eq_refl Ht Hb) as [S1 E1].
  split; [exact S1 |]. intros b i j k Hb0 Hi Hj Hk.
  apply (E1 [b; i; j] k); [repeat constructor; assumption | assumption].
Qed.

(** X12: with biases, for M >= 2, the forward output of the Approximate
    Convolution Layer is, element by element, the sum over the M branches of
    alpha_m * (conv(input, binary filter m) + bias), the bias of the output
    channel being added inside every branch before the weighting. *)
Theorem ApproxConv_with_biases_sum
  (conv2d : tensor 4 -> tensor 4 -> list nat -> padding -> tensor 4)
  (M : nat) (W : tensor 4) (bias : tensor 1) (strides : nat * nat) (pad : padding)
  (binary_filters : node (tensor 5)) (x : node (tensor 4)) (s : store)
  (al : list R) (n h w c : nat) :
  (2 <= M)%nat ->
  get_binary_filters v_filters M = Ok binary_filters ->
  v_alphas s = column al -> length al = M ->
  length (v_biases s) = c ->
  (forall m, (m < M)%nat ->
     shaped 4 [n; h; w; c]
       (conv2d (x s) (nth m (binary_filters s) [])
          [1%nat; fst strides; snd strides; 1%nat] pad)) ->
  exists (train : store -> store) (layer : node (tensor 4) -> node (tensor 4))
         (loss : node R),
    ApproxConv conv2d M W (Some bias) strides pad = Ok (train, layer, loss) /\
    shaped 4 [n; h; w; c] (layer x s) /\
    forall b i j k, (b < n)%nat -> (i < h)%nat -> (j < w)%nat -> (k < c)%nat ->
      nth k (nth j (nth i (nth b (layer x s) []) []) []) 0
      = sum_over M (fun m =>
          nth m al 0
          * (nth k (nth j (nth i (nth b
               (conv2d (x s) (nth m (binary_filters s) [])
                  [1%nat; fst strides; snd strides; 1%nat] pad) []) []) []) 0
             + nth k (v_biases s) 0)).
Proof.
  intros HM HB Hal Hlen Hbias Hshape.
  unfold ApproxConv. rewrite HB. cbn [bind]. unfold get_alphas.
  do 3 eexists. split; [reflexivity |].
  rewrite (ApproxConvLayer_value conv2d M binary_filters v_alphas (Tensor1 v_biases)
             strides pad x s al Hal Hlen).
  unfold add_biases.
  set (conv := fun m => conv2d (x s) (nth m (binary_filters s) [])
                          [1%nat; fst strides; snd strides; 1%nat] pad).
  set (branch := fun m => bcast Rplus 4 (conv m) (lead1 3 (r := 1) (v_biases s))).
  destruct (weighted_branches_sum M branch (fun m => nth m al 0) [n; h; w; c])
    as [S1 E1]; [lia | |].
  { intros m Hm. apply add_biases_shaped; [now apply Hshape | exact Hbias]. }
  split; [exact S1 |]. intros b i j k Hb Hi Hj Hk.
  rewrite <- elem_nth4.
  change (elem 4 (tf_reduce_sum0 (r := 4)
            (map (fun m => tmap (fun c0 => c0 * nth m al 0) 4 (branch m)) (seq 0 M)))
            [b; i; j; k]
          = sum_over M (fun m => nth m al 0
              * (nth k (nth j (nth i (nth b (conv m) []) []) []) 0 + nth k (v_biases s) 0))).
  rewrite E1 by now apply in_bounds4.
  apply sum_over_ext. intros m Hm. f_equal. unfold branch.
  destruct (add_biases_shaped (conv m) (v_biases s) n h w c (Hshape m Hm) Hbias)
    as [_ E2].
  rewrite E2 by assumption. now rewrite elem_nth4.
Qed.

(** The closure [ABCLayer] on K >= 1 branches of one shape, element by
    element. *)
Lemma ABCLayer_sum (K : nat) (layer : node (tensor 4) -> node (tensor 4))
  (x : node (tensor 4)) (s : store) (bl : list R) (n h w c : nat) :
  (1 <= K)%nat ->
  v_betas s = column bl -> length bl = K ->
  (forall k, (k < K)%nat ->
     shaped 4 [n; h; w; c] (layer (binarized_activation v_shift_parameters x k) s)) ->
  shaped 4 [n; h; w; c] (ABCLayer K v_shift_parameters v_betas layer x s) /\
  forall e i j q, (e < n)%nat -> (i < h)%nat -> (j < w)%nat -> (q < c)%nat ->
    nth q (nth j (nth i (nth e
      (ABCLayer K v_shift_parameters v_betas layer x s) []) []) []) 0
    = sum_over K (fun k =>
        nth k bl 0
        * nth q (nth j (nth i (nth e
            (layer (binarized_activation v_shift_parameters x k) s) []) []) []) 0).
Proof.
  intros HK Hb Hlen Hshape.
  rewrite (ABCLayer_value K v_shift_parameters v_betas layer x s bl Hb Hlen).
  set (branch := fun k => layer (binarized_activation v_shift_parameters x k) s).
  assert (E : map (fun k => tmap (Rmult (nth k bl 0)) 4 (branch k)) (seq 0 K)
              = map (fun k => tmap (fun v => v * nth k bl 0) 4 (branch k)) (seq 0 K)).
  { apply map_ext. intros k. apply tmap_ext. intros v. apply Rmult_comm. }
  unfold branch in E. rewrite E.
  destruct (weighted_branches_sum K branch (fun k => nth k bl 0) [n; h; w; c])
    as [S1 E1]; [lia | exact Hshape |].
  split; [exact S1 |]. intros e i j q He Hi Hj Hq.
  rewrite <- elem_nth4, E1 by now apply in_bounds4.
  apply sum_over_ext. intros k Hk. now rewrite elem_nth4.
Qed.

(** X13: for K >= 1 the ABC Layer is built around one shared Approximate
    Convolution Layer, and its forward output is, element by element, the
    sum over the K branches of beta_k times that layer applied to the input
    binarized with shift parameter k. *)
Theorem ABC_forward_weighted_sum
  (conv2d : tensor 4 -> tensor 4 -> list nat -> padding -> tensor 4)
  (W : tensor 4) (b : option (tensor 1)) (M K : nat) (strides : nat * nat)
  (pad : padding) (binary_filters : node (tensor 5)) (x : node (tensor 4))
  (s : store) (bl : list R) (n h w c : nat) :
  (1 <= K)%nat ->
  get_binary_filters v_filters M = Ok binary_filters ->
  v_betas s = column bl -> length bl = K ->
  (forall k, (k < K)%nat ->
     shaped 4 [n; h; w; c]
       (ApproxConvLayer conv2d M binary_filters v_alphas
          (match b with None => PyFloat 0 | Some _ => Tensor1 v_biases end)
          strides pad (binarized_activation v_shift_parameters x k) s)) ->
  exists (train : store -> store) (abc_layer : node (tensor 4) -> node (tensor 4))
         (loss : node R),
    ABC conv2d W b M K strides pad = Ok (train, abc_layer, loss) /\
    shaped 4 [n; h; w; c] (abc_layer x s) /\
    forall e i j q, (e < n)%nat -> (i < h)%nat -> (j < w)%nat -> (q < c)%nat ->
      nth q (nth j (nth i (nth e (abc_layer x s) []) []) []) 0
      = sum_over K (fun k =>
          nth k bl 0
          * nth q (nth j (nth i (nth e
              (ApproxConvLayer conv2d M binary_filters v_alphas
                 (match b with None => PyFloat 0 | Some _ => Tensor1 v_biases end)
                 strides pad (binarized_activation v_shift_parameters x k) s)
              []) []) []) 0).
Proof.
  intros HK HB Hb Hlen Hshape.
  unfold ABC, ApproxConv. rewrite HB. cbn [bind]. unfold get_alphas. cbn [bind].
  do 3 eexists. split; [reflexivity |].
  now apply ABCLayer_sum.
Qed.

(** X14: right after initialization (shift parameters 0, betas 1) the
    K >= 1 branches of the ABC Layer are identical: every element of the
    forward output is the sum of K copies of the element of the Approximate
    Convolution Layer applied to the one binarization of the input. *)
Theorem ABC_initial_branches_identical
  (conv2d : tensor 4 -> tensor 4 -> list nat -> padding -> tensor 4)
  (W : tensor 4) (b : option (tensor 1)) (M K : nat) (strides : nat * nat)
  (pad : padding) (binary_filters : node (tensor 5)) (x : node (tensor 4))
  (alphas0 : tensor 2) (n h w c : nat) :
  (1 <= K)%nat ->
  get_binary_filters v_filters M = Ok binary_filters ->
  shaped 4 [n; h; w; c]
    (ApproxConvLayer conv2d M binary_filters v_alphas
       (match b with None => PyFloat 0 | Some _ => Tensor1 v_biases end)
       strides pad (binarized_activation v_shift_parameters x 0)
       (initial_store W b M K alphas0)) ->
  exists (train : store -> store) (abc_layer : node (tensor 4) -> node (tensor 4))
         (loss : node R),
    ABC conv2d W b M K strides pad = Ok (train, abc_layer, loss) /\
    shaped 4 [n; h; w; c] (abc_layer x (initial_store W b M K alphas0)) /\
    forall e i j q, (e < n)%nat -> (i < h)%nat -> (j < w)%nat -> (q < c)%nat ->
      nth q (nth j (nth i (nth e
        (abc_layer x (initial_store W b M K alphas0)) []) []) []) 0
      = sum_over K (fun _ =>
          nth q (nth j (nth i (nth e
            (ApproxConvLayer conv2d M binary_filters v_alphas
               (match b with None => PyFloat 0 | Some _ => Tensor1 v_biases end)
               strides pad (binarized_activation v_shift_parameters x 0)
               (initial_store W b M K alphas0))
            []) []) []) 0).
Proof.
  intros HK HB Hshape.
  set (s0 := initial_store W b M K alphas0) in *.
  set (biases := match b with None => PyFloat 0 | Some _ => Tensor1 v_biases end) in *.
  set (layer := ApproxConvLayer conv2d M binary_filters v_alphas biases strides pad) in *.
  assert (Hb : v_betas s0 = column (repeat 1 K)).
  { unfold s0, initial_store, column. cbn [v_betas]. now rewrite map_repeat. }
  assert (Hbranch : forall k, (k < K)%nat ->
            layer (binarized_activation v_shift_parameters x k) s0
            = layer (binarized_activation v_shift_parameters x 0) s0).
  { intros k Hk. unfold layer, ApproxConvLayer. cbv zeta.
    rewrite (binarized_activation_value v_shift_parameters x k s0 0)
      by (apply initial_shift_parameter; lia).
    rewrite (binarized_activation_value v_shift_parameters x 0 s0 0)
      by (apply initial_shift_parameter; lia).
    reflexivity. }
  unfold ABC, ApproxConv. rewrite HB. cbn [bind]. unfold get_alphas. cbn [bind].
  do 3 eexists. split; [reflexivity |]. fold biases. fold layer.
  destruct (ABCLayer_sum K layer x s0 (repeat 1 K) n h w c HK Hb (repeat_length 1 K))
    as [S1 E1].
  { intros k Hk. rewrite (Hbranch k Hk). exact Hshape. }
  split; [exact S1 |].
  intros e i j q He Hi Hj Hq. rewrite E1 by assumption.
  apply sum_over_ext. intros k Hk. rewrite (Hbranch k Hk).
  rewrite nth_repeat_R by lia. apply Rmult_1_l.
Qed.

Lemma ApproxConv_with_biases_sum_witness :
  (2 <= 2)%nat /\
  get_binary_filters v_filters 2
  = Ok (match get_binary_filters v_filters 2 with
        | Ok B => B
        | Raise _ => constant []
        end) /\
  v_alphas (initial_store [[[[1; 3]]]] (Some [7; 9]) 2 1 (column [2; 5]))
  = column [2; 5] /\
  length [2; 5] = 2%nat /\
  length (v_biases (initial_store [[[[1; 3]]]] (Some [7; 9]) 2 1 (column [2; 5])))
  = 2%nat /\
  (forall m, (m < 2)%nat ->
     shaped 4 [1; 1; 1; 2]%nat
       (tf_conv2d
          (constant ([[[[3]]]] : tensor 4)
             (initial_store [[[[1; 3]]]] (Some [7; 9]) 2 1 (column [2; 5])))
          (nth m (match get_binary_filters v_filters 2 with
                  | Ok B => B
                  | Raise _ => constant []
                  end (initial_store [[[[1; 3]]]] (Some [7; 9]) 2 1 (column [2; 5]))) [])
          [1%nat; fst (1%nat, 1%nat); snd (1%nat, 1%nat); 1%nat] VALID)) /\
  exists (train : store -> store) (layer : node (tensor 4) -> node (tensor 4))
         (loss : node R),
    ApproxConv tf_conv2d 2 [[[[1; 3]]]] (Some [7; 9]) (1%nat, 1%nat) VALID
    = Ok (train, layer, loss) /\
    shaped 4 [1; 1; 1; 2]%nat
      (layer (constant ([[[[3]]]] : tensor 4))
         (initial_store [[[[1; 3]]]] (Some [7; 9]) 2 1 (column [2; 5]))) /\
    forall b i j k, (b < 1)%nat -> (i < 1)%nat -> (j < 1)%nat -> (k < 2)%nat ->
      nth k (nth j (nth i (nth b
        (layer (constant ([[[[3]]]] : tensor 4))
           (initial_store [[[[1; 3]]]] (Some [7; 9]) 2 1 (column [2; 5]))) []) []) []) 0
      = sum_over 2 (fun m =>
          nth m [2; 5] 0
          * (nth k (nth j (nth i (nth b
               (tf_conv2d
                  (constant ([[[[3]]]] : tensor 4)
                     (initial_store [[[[1; 3]]]] (Some [7; 9]) 2 1 (column [2; 5])))
                  (nth m (match get_binary_filters v_filters 2 with
                          | Ok B => B
                          | Raise _ => constant []
                          end (initial_store [[[[1; 3]]]] (Some [7; 9]) 2 1
                                 (column [2; 5]))) [])
                  [1%nat; fst (1%nat, 1%nat); snd (1%nat, 1%nat); 1%nat] VALID)
               []) []) []) 0
             + nth k (v_biases (initial_store [[[[1; 3]]]] (Some [7; 9]) 2 1
                                  (column [2; 5]))) 0)).
Proof.
  assert (Hshape : forall m, (m < 2)%nat ->
     shaped 4 [1; 1; 1; 2]%nat
       (tf_conv2d
          (constant ([[[[3]]]] : tensor 4)
             (initial_store [[[[1; 3]]]] (Some [7; 9]) 2 1 (column [2; 5])))
          (nth m (match get_binary_filters v_filters 2 with
                  | Ok B => B
                  | Raise _ => constant []
                  end (initial_store [[[[1; 3]]]] (Some [7; 9]) 2 1 (column [2; 5]))) [])
          [1%nat; fst (1%nat, 1%nat); snd (1%nat, 1%nat); 1%nat] VALID)).
  { intros [| [| m]] Hm; [| | lia]; cbn; repeat constructor. }
  split; [lia |]. split; [reflexivity |]. split; [reflexivity |].
  split; [reflexivity |]. split; [reflexivity |]. split; [exact Hshape |].
  apply (ApproxConv_with_biases_sum tf_conv2d 2 [[[[1; 3]]]] [7; 9] (1%nat, 1%nat) VALID
           (match get_binary_filters v_filters 2 with
            | Ok B => B
            | Raise _ => constant []
            end)
           (constant ([[[[3]]]] : tensor 4))
           (initial_store [[[[1; 3]]]] (Some [7; 9]) 2 1 (column [2; 5]))
           [2; 5] 1 1 1 2);
    [lia | reflexivity | reflexivity | reflexivity | reflexivity |].
  exact Hshape.
Defined.

Lemma ABC_forward_weighted_sum_witness :
  (1 <= 2)%nat /\
  get_binary_filters v_filters 2
  = Ok (match get_binary_filters v_filters 2 with
        | Ok B => B
        | Raise _ => constant []
        end) /\
  v_betas (initial_store [[[[1; 3]]]] None 2 2 (column [2; 5])) = column [1; 1] /\
  length [1; 1] = 2%nat /\
  (forall k, (k < 2)%nat ->
     shaped 4 [1; 1; 1; 2]%nat
       (ApproxConvLayer tf_conv2d 2
          (match get_binary_filters v_filters 2 with
           | Ok B => B
           | Raise _ => constant []
           end)
          v_alphas
          (PyFloat 0)
          (1%nat, 1%nat) VALID
          (binarized_activation v_shift_parameters (constant ([[[[3]]]] : tensor 4)) k)
          (initial_store [[[[1; 3]]]] None 2 2 (column [2; 5])))) /\
  exists (train : store -> store) (abc_layer : node (tensor 4) -> node (tensor 4))
         (loss : node R),
    ABC tf_conv2d [[[[1; 3]]]] None 2 2 (1%nat, 1%nat) VALID
    = Ok (train, abc_layer, loss) /\
    shaped 4 [1; 1; 1; 2]%nat
      (abc_layer (constant ([[[[3]]]] : tensor 4))
         (initial_store [[[[1; 3]]]] None 2 2 (column [2; 5]))) /\
    forall e i j q, (e < 1)%nat -> (i < 1)%nat -> (j < 1)%nat -> (q < 2)%nat ->
      nth q (nth j (nth i (nth e
        (abc_layer (constant ([[[[3]]]] : tensor 4))
           (initial_store [[[[1; 3]]]] None 2 2 (column [2; 5]))) []) []) []) 0
      = sum_over 2 (fun k =>
          nth k [1; 1] 0
          * nth q (nth j (nth i (nth e
              (ApproxConvLayer tf_conv2d 2
                 (match get_binary_filters v_filters 2 with
                  | Ok B => B
                  | Raise _ => constant []
                  end)
                 v_alphas
                 (PyFloat 0)
                 (1%nat, 1%nat) VALID
                 (binarized_activation v_shift_parameters
                    (constant ([[[[3]]]] : tensor 4)) k)
                 (initial_store [[[[1; 3]]]] None 2 2 (column [2; 5])))
              []) []) []) 0).
Proof.
  assert (Hshape : forall k, (k < 2)%nat ->
     shaped 4 [1; 1; 1; 2]%nat
       (ApproxConvLayer tf_conv2d 2
          (match get_binary_filters v_filters 2 with
           | Ok B => B
           | Raise _ => constant []
           end)
          v_alphas
          (PyFloat 0)
          (1%nat, 1%nat) VALID
          (binarized_activation v_shift_parameters (constant ([[[[3]]]] : tensor 4)) k)
          (initial_store [[[[1; 3]]]] None 2 2 (column [2; 5])))).
  { intros k Hk.
    apply (ApproxConvLayer_sum tf_conv2d 2 _ v_alphas (1%nat, 1%nat) VALID _ _ [2; 5]);
      [lia | reflexivity | reflexivity |].
    intros [| [| m]] Hm; [| | lia];
      (destruct k as [| [| k]]; [| | lia]); cbn; repeat constructor. }
  split; [lia |]. split; [reflexivity |]. split; [reflexivity |].
  split; [reflexivity |]. split; [exact Hshape |].
  apply (ABC_forward_weighted_sum tf_conv2d [[[[1; 3]]]] None 2 2 (1%nat, 1%nat) VALID
           (match get_binary_filters v_filters 2 with
            | Ok B => B
            | Raise _ => constant []
            end)
           (constant ([[[[3]]]] : tensor 4))
           (initial_store [[[[1; 3]]]] None 2 2 (column [2; 5]))
           [1; 1] 1 1 1 2); [lia | reflexivity | reflexivity | reflexivity |].
  exact Hshape.
Defined.

Lemma ABC_initial_branches_identical_witness :
  (1 <= 3)%nat /\
  get_binary_filters v_filters 2
  = Ok (match get_binary_filters v_filters 2 with
        | Ok B => B
        | Raise _ => constant []
        end) /\
  shaped 4 [1; 1; 1; 2]%nat
    (ApproxConvLayer tf_conv2d 2
       (match get_binary_filters v_filters 2 with
        | Ok B => B
        | Raise _ => constant []
        end)
       v_alphas (PyFloat 0) (1%nat, 1%nat) VALID
       (binarized_activation v_shift_parameters (constant ([[[[3]]]] : tensor 4)) 0)
       (initial_store [[[[1; 3]]]] None 2 3 (column [2; 5]))) /\
  exists (train : store -> store) (abc_layer : node (tensor 4) -> node (tensor 4))
         (loss : node R),
    ABC tf_conv2d [[[[1; 3]]]] None 2 3 (1%nat, 1%nat) VALID
    = Ok (train, abc_layer, loss) /\
    shaped 4 [1; 1; 1; 2]%nat
      (abc_layer (constant ([[[[3]]]] : tensor 4))
         (initial_store [[[[1; 3]]]] None 2 3 (column [2; 5]))) /\
    forall e i j q, (e < 1)%nat -> (i < 1)%nat -> (j < 1)%nat -> (q < 2)%nat ->
      nth q (nth j (nth i (nth e
        (abc_layer (constant ([[[[3]]]] : tensor 4))
           (initial_store [[[[1; 3]]]] None 2 3 (column [2; 5]))) []) []) []) 0
      = sum_over 3 (fun _ =>
          nth q (nth j (nth i (nth e
            (ApproxConvLayer tf_conv2d 2
               (match get_binary_filters v_filters 2 with
                | Ok B => B
                | Raise _ => constant []
                end)
               v_alphas (PyFloat 0) (1%nat, 1%nat) VALID
               (binarized_activation v_shift_parameters
                  (constant ([[[[3]]]] : tensor 4)) 0)
               (initial_store [[[[1; 3]]]] None 2 3 (column [2; 5])))
            []) []) []) 0).
Proof.
  assert (Hshape :
     shaped 4 [1; 1; 1; 2]%nat
       (ApproxConvLayer tf_conv2d 2
          (match get_binary_filters v_filters 2 with
           | Ok B => B
           | Raise _ => constant []
           end)
          v_alphas (PyFloat 0) (1%nat, 1%nat) VALID
          (binarized_activation v_shift_parameters (constant ([[[[3]]]] : tensor 4)) 0)
          (initial_store [[[[1; 3]]]] None 2 3 (column [2; 5])))).
  { apply (ApproxConvLayer_sum tf_conv2d 2 _ v_alphas (1%nat, 1%nat) VALID _ _ [2; 5]);
      [lia | reflexivity | reflexivity |].
    intros [| [| m]] Hm; [| | lia]; cbn; repeat constructor. }
  split; [lia |]. split; [reflexivity |]. split; [exact Hshape |].
  apply (ABC_initial_branches_identical tf_conv2d [[[[1; 3]]]] None 2 3
           (1%nat, 1%nat) VALID
           (match get_binary_filters v_filters 2 with
            | Ok B => B
            | Raise _ => constant []
            end)
           (constant ([[[[3]]]] : tensor 4)) (column [2; 5]) 1 1 1 2);
    [lia | reflexivity |].
  exact Hshape.
Defined.

(** ** The loops of the training and evaluation cells *)

Lemma run_epochs_fold (op : store -> store) (l : list nat) (s : store)
  (P : store -> store -> Prop) :
  (forall s0, P s0 s0) ->
  (forall s0 s1, P s0 s1 -> P s0 (op s1)) ->
  P s (fold_left (fun s' _ => snd (run_op op s')) l s).
Proof.
  intros Hrefl Hstep.
  assert (G : forall s1, P s s1 -> P s (fold_left (fun s' _ => snd (run_op op s')) l s1)).
  { induction l as [| a l IH]; intros s1 H1; [exact H1 |].
    cbn [fold_left]. apply IH. unfold run_op. cbn [snd]. now apply Hstep. }
  apply G. apply Hrefl.
Qed.

(** X15: however many times the inner loop runs the alpha training
    operation, FilterBank, Bias, ShiftParameters and BetaVector are as
    before (none of them is in the operation's [var_list]), so the
    BinaryFilterBank the alphas are fitted to is the same after the loop
    as before it. *)
Theorem alpha_epochs_keep_binary_filters
  (conv2d : tensor 4 -> tensor 4 -> list nat -> padding -> tensor 4)
  (W : tensor 4) (b : option (tensor 1)) (M K : nat) (strides : nat * nat)
  (pad : padding) :
  (2 <= M)%nat ->
  exists (binary_filters : node (tensor 5)) (train : store -> store)
         (abc_layer : node (tensor 4) -> node (tensor 4)) (loss : node R),
    get_binary_filters v_filters M = Ok binary_filters /\
    ABC conv2d W b M K strides pad = Ok (train, abc_layer, loss) /\
    forall (alpha_training_epochs : nat) (s : store),
      v_filters (snd (run_alpha_epochs train alpha_training_epochs s)) = v_filters s /\
      v_biases (snd (run_alpha_epochs train alpha_training_epochs s)) = v_biases s /\
      v_shift_parameters (snd (run_alpha_epochs train alpha_training_epochs s))
      = v_shift_parameters s /\
      v_betas (snd (run_alpha_epochs train alpha_training_epochs s)) = v_betas s /\
      binary_filters (snd (run_alpha_epochs train alpha_training_epochs s))
      = binary_filters s.
Proof.
  intros HM.
  destruct (get_binary_filters_value 4 v_filters M) as [Bn [HB Hval]]; [lia |].
  unfold ABC, ApproxConv. rewrite HB. cbn [bind].
  exists Bn, (snd (fst (get_alphas v_filters Bn M))).
  do 2 eexists. split; [reflexivity |]. split; [reflexivity |].
  intros n s. unfold run_alpha_epochs. cbn [snd].
  set (op := snd (fst (get_alphas v_filters Bn M))).
  assert (F : v_filters (fold_left (fun s' _ => snd (run_op op s')) (py_range n) s)
              = v_filters s /\
              v_biases (fold_left (fun s' _ => snd (run_op op s')) (py_range n) s)
              = v_biases s /\
              v_shift_parameters (fold_left (fun s' _ => snd (run_op op s')) (py_range n) s)
              = v_shift_parameters s /\
              v_betas (fold_left (fun s' _ => snd (run_op op s')) (py_range n) s)
              = v_betas s).
  { apply (run_epochs_fold op (py_range n) s
             (fun s0 s1 => v_filters s1 = v_filters s0 /\ v_biases s1 = v_biases s0 /\
                           v_shift_parameters s1 = v_shift_parameters s0 /\
                           v_betas s1 = v_betas s0)).
    - intros s0. repeat split.
    - intros s0 s1 [H1 [H2 [H3 H4]]]. unfold op.
      destruct (training_op_frame 4 v_filters Bn M s1) as [E1 [E2 [E3 E4]]].
      rewrite E1, E2, E3, E4. auto. }
  destruct F as [F1 [F2 [F3 F4]]].
  repeat split; try assumption.
  rewrite !Hval. unfold v_filters in F1 |- *. now rewrite F1.
Qed.

Lemma alpha_epochs_keep_binary_filters_witness :
  (2 <= 5)%nat /\
  exists (binary_filters : node (tensor 5)) (train : store -> store)
         (abc_layer : node (tensor 4) -> node (tensor 4)) (loss : node R),
    get_binary_filters v_filters 5 = Ok binary_filters /\
    ABC tf_conv2d (zero_bank 5 5 1 32) None 5 5 (1%nat, 1%nat) SAME
    = Ok (train, abc_layer, loss) /\
    forall (alpha_training_epochs : nat) (s : store),
      v_filters (snd (run_alpha_epochs train alpha_training_epochs s)) = v_filters s /\
      v_biases (snd (run_alpha_epochs train alpha_training_epochs s)) = v_biases s /\
      v_shift_parameters (snd (run_alpha_epochs train alpha_training_epochs s))
      = v_shift_parameters s /\
      v_betas (snd (run_alpha_epochs train alpha_training_epochs s)) = v_betas s /\
      binary_filters (snd (run_alpha_epochs train alpha_training_epochs s))
      = binary_filters s.
Proof.
  split; [lia |].
  apply (alpha_epochs_keep_binary_filters tf_conv2d (zero_bank 5 5 1 32) None 5 5
           (1%nat, 1%nat) SAME).
  lia.
Defined.

Lemma sum_repeat (v : R) (n : nat) :
  fold_right Rplus 0 (repeat v n) = INR n * v.
Proof.
  induction n as [| n IH]; [simpl; lra |].
  cbn [repeat fold_right]. rewrite IH, S_INR. lra.
Qed.

Lemma np_mean_repeat (v : R) (n : nat) : (0 < n)%nat -> np_mean (repeat v n) = v.
Proof.
  intros H. unfold np_mean. rewrite sum_repeat, repeat_length.
  apply lt_INR in H. simpl in H. field. lra.
Qed.

(** X16: the evaluation loop at the end of an epoch never feeds the
    validation batches it draws: the accuracy and the loss it reports are
    those of the network on [batch], the last training batch, whatever the
    validation set holds. *)
Theorem evaluate_epoch_reports_training_batch (feed dataset variables : Type)
  (next_batch : nat -> dataset -> feed * dataset)
  (run_metrics : variables -> feed -> R * R)
  (sess : variables) (batch : feed) (validation : dataset) (batch_size : nat) :
  fst (evaluate_epoch feed dataset variables next_batch run_metrics
         sess batch validation batch_size)
  = run_metrics sess batch.
Proof.
  unfold evaluate_epoch.
  set (step := fun (acc : list R * list R * dataset) (iteration : nat) => _).
  assert (G : forall (l : list nat) lv av ds,
             exists ds',
               fold_left step l (lv, av, ds)
               = (lv ++ repeat (snd (run_metrics sess batch)) (length l),
                  av ++ repeat (fst (run_metrics sess batch)) (length l), ds')).
  { induction l as [| a l IH]; intros lv av ds.
    - exists ds. cbn [fold_left length repeat]. now rewrite !app_nil_r.
    - cbn [fold_left]. unfold step at 2.
      destruct (next_batch batch_size ds) as [xy ds1].
      destruct (run_metrics sess batch) as [acc_val loss_val] eqn:E.
      destruct (IH (lv ++ [loss_val]) (av ++ [acc_val]) ds1) as [ds' Hds'].
      exists ds'. rewrite Hds'. cbn [fst snd length repeat].
      now rewrite <- !app_assoc. }
  destruct (G (seq 1 200) [] [] validation) as [ds' Hds'].
  rewrite Hds'. cbn [app fst]. rewrite length_seq.
  rewrite !np_mean_repeat by lia.
  now destruct (run_metrics sess batch).
Qed.

(** ** The helper layers of the test network *)

Lemma shaped_hd (r : nat) (d : nat) (ds : list nat) (l : tensor (S r))
  (dflt : tensor r) :
  shaped (S r) (d :: ds) l -> (1 <= d)%nat -> shaped r ds (hd dflt l).
Proof.
  intros [HL HF] Hd. destruct l as [| a l]; [simpl in HL; lia |].
  now inversion HF.
Qed.

Lemma shaped_length (r : nat) (d : nat) (ds : list nat) (l : tensor (S r)) :
  shaped (S r) (d :: ds) l -> length l = d.
Proof. now intros [HL _]. Qed.

Lemma shaped_grid (f : nat -> nat -> nat -> R) (a b c b' c' : nat) :
  b' = b -> (b = 0%nat \/ c' = c) ->
  shaped 3 [a; b; c]
    (map (fun i => map (fun j => map (fun k => f i j k) (seq 0 c')) (seq 0 b')) (seq 0 a)).
Proof.
  intros -> H. cbn [shaped]. split; [now rewrite length_map, length_seq |].
  apply Forall_map, Forall_forall. intros i _.
  split; [now rewrite length_map, length_seq |].
  apply Forall_map, Forall_forall. intros j Hj.
  destruct H as [-> | ->]; [simpl in Hj; contradiction |].
  split; [now rewrite length_map, length_seq |].
  apply Forall_map, Forall_forall. intros k _. reflexivity.
Qed.

Lemma out_size_same_1 (n k : nat) : out_size SAME n k 1 = n.
Proof. unfold out_size. rewrite Nat.div_1_r. lia. Qed.

Lemma out_size_same_2 (n : nat) : out_size SAME n 2 2 = Nat.div (n + 1) 2.
Proof. unfold out_size. f_equal. lia. Qed.

Lemma conv2d_shape (x W : tensor 4) (n h w c fh fw co : nat) :
  shaped 4 [n; h; w; c] x -> shaped 4 [fh; fw; c; co] W ->
  (1 <= fh)%nat -> (1 <= fw)%nat -> (1 <= c)%nat ->
  shaped 4 [n; h; w; co] (conv2d x W).
Proof.
  intros [Hn Hx] HW Hfh Hfw Hc.
  assert (Hco : length (hd [] (hd [] (hd [] W))) = co).
  { pose proof (shaped_hd 3 fh [fw; c; co] W [] HW Hfh) as H3.
    pose proof (shaped_hd 2 fw [c; co] _ [] H3 Hfw) as H2.
    pose proof (shaped_hd 1 c [co] _ [] H2 Hc) as H1.
    exact (shaped_length 0 co [] _ H1). }
  unfold conv2d, tf_conv2d. cbv zeta. cbn [nth].
  split; [now rewrite length_map |].
  apply Forall_map. eapply Forall_impl; [| exact Hx].
  intros image Himg. simpl in Himg.
  change (shaped 3 [h; w; c] image) in Himg.
  rewrite Hco, !out_size_same_1, (shaped_length 2 h [w; c] image Himg).
  destruct h as [| h'].
  - cbn [seq map shaped]. split; [reflexivity | constructor].
  - pose proof (shaped_hd 2 (S h') [w; c] image [] Himg ltac:(lia)) as Hrow.
    apply shaped_grid; [exact (shaped_length 1 w [c] _ Hrow) | now right].
Qed.

Lemma max_pool_2x2_shape (x : tensor 4) (n h w c : nat) :
  shaped 4 [n; h; w; c] x ->
  shaped 4 [n; Nat.div (h + 1) 2; Nat.div (w + 1) 2; c] (max_pool_2x2 x).
Proof.
  intros [Hn Hx]. unfold max_pool_2x2, tf_max_pool. cbv zeta. cbn [nth].
  split; [now rewrite length_map |].
  apply Forall_map. eapply Forall_impl; [| exact Hx].
  intros image Himg. simpl in Himg.
  change (shaped 3 [h; w; c] image) in Himg.
  rewrite !out_size_same_2, (shaped_length 2 h [w; c] image Himg).
  destruct h as [| h'].
  - cbn [seq map shaped Nat.add]. change (Nat.div 1 2) with 0%nat.
    cbn [seq map]. split; [reflexivity | constructor].
  - pose proof (shaped_hd 2 (S h') [w; c] image [] Himg ltac:(lia)) as Hrow.
    pose proof (shaped_length 1 w [c] _ Hrow) as Lw.
    assert (Lw' : @length (list R) (hd [] image) = w) by exact Lw.
    rewrite Lw'.
    destruct w as [| w'].
    + apply shaped_grid; [reflexivity | now left].
    + pose proof (shaped_hd 1 (S w') [c] _ [] Hrow ltac:(lia)) as Hpix.
      apply shaped_grid; [reflexivity | right; exact (shaped_length 0 c [] _ Hpix)].
Qed.

(** X17: on a batch of n images of h x w pixels with c channels,
    [conv2d] with a filter bank of c input and c_out output channels keeps
    batch size, height and width and returns c_out channels, and
    [max_pool_2x2] after it halves height and width, rounding up (28 -> 14
    -> 7, the 7 * 7 * 64 of the network's reshape). *)
Theorem conv2d_max_pool_shapes (x W : tensor 4) (n h w c fh fw co : nat) :
  shaped 4 [n; h; w; c] x -> shaped 4 [fh; fw; c; co] W ->
  (1 <= fh)%nat -> (1 <= fw)%nat -> (1 <= c)%nat ->
  shaped 4 [n; h; w; co] (conv2d x W) /\
  shaped 4 [n; Nat.div (h + 1) 2; Nat.div (w + 1) 2; co] (max_pool_2x2 (conv2d x W)).
Proof.
  intros Hx HW Hfh Hfw Hc.
  pose proof (conv2d_shape x W n h w c fh fw co Hx HW Hfh Hfw Hc) as H.
  split; [exact H | now apply max_pool_2x2_shape].
Qed.

Lemma shaped_zero_bank (a b c d : nat) : shaped 4 [a; b; c; d] (zero_bank a b c d).
Proof.
  unfold zero_bank. cbn [shaped].
  split; [apply repeat_length |]. apply Forall_forall. intros t1 ->%repeat_spec.
  split; [apply repeat_length |]. apply Forall_forall. intros t2 ->%repeat_spec.
  split; [apply repeat_length |]. apply Forall_forall. intros t3 ->%repeat_spec.
  split; [apply repeat_length |]. apply Forall_forall. intros t4 _. reflexivity.
Qed.

Lemma conv2d_max_pool_shapes_witness :
  shaped 4 [50%nat; 28%nat; 28%nat; 32%nat]
    (conv2d (zero_bank 50 28 28 1) (zero_bank 5 5 1 32)) /\
  shaped 4 [50%nat; Nat.div (28 + 1) 2; Nat.div (28 + 1) 2; 32%nat]
    (max_pool_2x2 (conv2d (zero_bank 50 28 28 1) (zero_bank 5 5 1 32))).
Proof.
  apply (conv2d_max_pool_shapes (zero_bank 50 28 28 1) (zero_bank 5 5 1 32)
           50 28 28 1 5 5 32);
    [apply shaped_zero_bank | apply shaped_zero_bank | lia | lia | lia].
Defined.
